(** * bert-blog-tagger: the training driver of [train.py]

    A shallow embedding of [train.py]: the epoch runner [run_epoch], the
    driver [main] with its early-stopping loop, and the command line declared
    in the [__main__] block.  The deep-learning framework, the tokenizer and
    the data set are collaborators of the script; they appear here as an
    interface ([PyNum], [Torch]) whose operations the script calls. *)

From Stdlib Require Import ZArith QArith List String Ascii Bool Lia.
Import ListNotations.

Local Open Scope string_scope.
Local Open Scope list_scope.
Local Open Scope Z_scope.

(** ** Python values the script computes with *)

(** Python floats (losses, the dropout rate) with the operations the script
    applies to them, and the two conversions [int(s)] and [float(s)] that
    [argparse] calls for [type=int] and [type=float]. *)
Class PyNum := {
  float : Type;
  float_of_int : Z -> float;
  (** The float a decimal literal of the source denotes. *)
  float_lit : Q -> float;
  fadd : float -> float -> float;
  fdiv : float -> float -> float;
  flt : float -> float -> bool;
  int_of_string : string -> option Z;
  float_of_string : string -> option float
}.

(** Exceptions the script can raise by itself. *)
Inductive exn : Type :=
| AssertionError
| AttributeError
| ZeroDivisionError
| StopIteration.

Inductive result (A : Type) : Type :=
| Ok (a : A)
| Raise (e : exn).
Arguments Ok {A} a.
Arguments Raise {A} e.

(** State and exception monad: a Python call mutates the objects it was
    handed and either returns or raises; what it mutated before raising
    stays mutated. *)
Definition M (S A : Type) : Type := S -> result A * S.

Definition ret {S A} (a : A) : M S A := fun s => (Ok a, s).

Definition bind {S A B} (c : M S A) (k : A -> M S B) : M S B :=
  fun s =>
    match c s with
    | (Ok a, s') => k a s'
    | (Raise e, s') => (Raise e, s')
    end.

Definition raise {S A} (e : exn) : M S A := fun s => (Raise e, s).
Definition get {S} : M S S := fun s => (Ok s, s).
Definition put {S} (s : S) : M S unit := fun _ => (Ok tt, s).
Definition modify {S} (f : S -> S) : M S unit := fun s => (Ok tt, f s).

Definition assert_ {S} (b : bool) : M S unit :=
  if b then ret tt else raise AssertionError.

Declare Scope py_scope.
Delimit Scope py_scope with py.
Notation "x <- c ;; k" := (bind c (fun x => k))
  (at level 100, c at next level, right associativity) : py_scope.
Notation "c ;; k" := (bind c (fun _ => k))
  (at level 100, right associativity) : py_scope.
Local Open Scope py_scope.

(** ** [utils.EarlyStopMonitor] *)

Module EarlyStopMonitor.
Section Monitor.
Context {num : PyNum}.

(** Modelled from the spec: [utils.EarlyStopMonitor] is imported by
    [train.py]; the file [utils.py] is not among the sources embedded
    here.  The state is the one section 4.3 of the specification lists: the
    best loss seen so far (initially unset), the counter of consecutive
    non-improving epochs, the stop flag (initially false) and the patience
    threshold. *)
Record t : Type := mk {
  patience : Z;
  best : option float;
  counter : Z;
  stop : bool
}.

(** Modelled from the spec: [EarlyStopMonitor(patience)], with the best
    loss unset, the counter at zero and the flag clear. *)
Definition init (patience : Z) : t :=
  {| patience := patience; best := None; counter := 0; stop := false |}.

(** Modelled from the spec: "lower than best (or best unset)". *)
Definition improves (best : option float) (loss : float) : bool :=
  match best with
  | None => true
  | Some b => flt loss b
  end.

(** Modelled from the spec: one call [monitor(loss)].  "If lower than best
    (or best unset), update best and reset counter to zero; otherwise
    increment counter.  If counter reaches/exceeds P, set stop flag true.
    Once true, stop flag never resets within a run." *)
Definition call (m : t) (loss : float) : t :=
  let best' := if improves (best m) loss then Some loss else best m in
  let counter' := if improves (best m) loss then 0 else counter m + 1 in
  {| patience := patience m;
     best := best';
     counter := counter';
     stop := if patience m <=? counter' then true else stop m |}.

(** The monitor after a sequence of calls. *)
Definition feed_from (m : t) (losses : list float) : t :=
  fold_left call losses m.

Definition feed (patience : Z) (losses : list float) : t :=
  feed_from (init patience) losses.

(** The specification's vocabulary, stated on the sequence of losses
    alone.  [running_best ls] is the last loss of [ls] that was lower than
    every best before it. *)
Definition running_best (losses : list float) : option float :=
  fold_left (fun b x => if improves b x then Some x else b) losses None.

(** Every loss of [run] fails to improve on [best]. *)
Fixpoint stale_run (best : option float) (run : list float) : bool :=
  match run with
  | [] => true
  | x :: rest => negb (improves best x) && stale_run best rest
  end.

(** After the losses [seen] (at least one), some [n] consecutive losses
    ending at the last one all failed to improve on the running best. *)
Definition stale_streak (n : Z) (seen : list float) : Prop :=
  seen <> [] /\
  exists pre run,
    seen = pre ++ run /\
    n <= Z.of_nat (List.length run) /\
    stale_run (running_best pre) run = true.
End Monitor.
End EarlyStopMonitor.

(** ** [transformers.get_linear_schedule_with_warmup] *)

Module Schedule.
Local Open Scope Q_scope.

(** Python's [max(a, b)] on two numbers: [b] when it is greater, else [a]. *)
Definition max_ (a b : Q) : Q := if Qle_bool b a then a else b.

(** Modelled from the spec: the linear warmup/decay schedule belongs to
    the [transformers] library, which is not part of the sources.  The
    multiplier it applies to the optimizer's base learning rate at step
    [current_step] "ramps linearly from zero to a peak" over
    [num_warmup_steps] steps, "then decays linearly to zero" at
    [num_training_steps]. *)
Definition lr_lambda (num_warmup_steps num_training_steps current_step : Z) : Q :=
  if (current_step <? num_warmup_steps)%Z then
    inject_Z current_step / inject_Z (Z.max 1 num_warmup_steps)
  else
    max_ 0 (inject_Z (num_training_steps - current_step)
            / inject_Z (Z.max 1 (num_training_steps - num_warmup_steps))).

(** The scheduler object: its configuration and its step counter. *)
Record t : Type := mk {
  num_warmup_steps : Z;
  num_training_steps : Z;
  last_epoch : Z
}.

(** The multiplier the scheduler currently imposes. *)
Definition factor (s : t) : Q :=
  lr_lambda (num_warmup_steps s) (num_training_steps s) (last_epoch s).

Definition advance (s : t) : t :=
  {| num_warmup_steps := num_warmup_steps s;
     num_training_steps := num_training_steps s;
     last_epoch := (last_epoch s + 1)%Z |}.

(** A schedule has a warmup phase when it starts from zero and rises for
    some positive number of steps. *)
Definition has_warmup (num_warmup_steps num_training_steps : Z) : Prop :=
  lr_lambda num_warmup_steps num_training_steps 0 == 0 /\
  exists peak : Z,
    (0 < peak)%Z /\
    forall k : Z, (0 <= k < peak)%Z ->
      lr_lambda num_warmup_steps num_training_steps k
      < lr_lambda num_warmup_steps num_training_steps (k + 1).

Definition warms_up (s : t) : Prop :=
  has_warmup (num_warmup_steps s) (num_training_steps s).
End Schedule.

(** ** The collaborators of [train.py] *)

(** What the script imports and calls: the data loaders of [dataset], the
    tokenizer and optimizer of [transformers], the classifier of [model] and
    the tensor operations of [torch].  Each is the function of its inputs
    that the script relies on; a failure inside a collaborator is not part
    of this model. *)
Class Torch {num : PyNum} := {
  Batch : Type;
  Tokenizer : Type;
  Model : Type;
  Optimizer : Type;
  (** [make_loader(split, batch_size)]: the batches one pass over the
      loader yields, taken in the same order at every pass;
      [len(data_loader)] is their number. *)
  make_loader : string -> Z -> list Batch;
  (** [label.size(1)] of a batch. *)
  num_labels_of : Batch -> Z;
  (** [AutoTokenizer.from_pretrained(model_name)]. *)
  from_pretrained : string -> Tokenizer;
  (** [BertForPostClassification(model_name, num_labels, dropout, freeze_bert)]. *)
  BertForPostClassification : string -> Z -> float -> bool -> Model;
  (** [model.load_state_dict(torch.load(weight_path))]. *)
  load_state_dict : string -> Model -> Model;
  (** [model.train()] and [model.eval()]. *)
  train_mode : Model -> Model;
  eval_mode : Model -> Model;
  (** [AdamW(model.parameters(), lr=2e-5, eps=1e-8)]. *)
  AdamW : Model -> Optimizer;
  (** [criterion(model( **tokenizer(list(inputs), ...)), labels).item()]:
      the forward pass and the loss read the model, they do not write it. *)
  forward_loss : Tokenizer -> Model -> Batch -> float;
  (** [optimizer.zero_grad()], [loss.backward()], [optimizer.step()]. *)
  zero_grad : Optimizer -> Model -> Model;
  backward : Model -> Batch -> Model;
  optimizer_step : Optimizer -> Model -> Optimizer * Model;
  (** The learning rate a scheduler writes into its optimizer: the base
      rate times the given factor. *)
  set_lr_factor : Q -> Optimizer -> Optimizer
}.

(** ** [train.py] *)

Section Train.
Context {num : PyNum} {torch : Torch}.

(** [len(data_loader)]. *)
Definition len (data_loader : list Batch) : Z :=
  Z.of_nat (List.length data_loader).

(** [range(n)]. *)
Definition range (n : Z) : list Z :=
  map Z.of_nat (seq 0 (Z.to_nat n)).

(** [get_linear_schedule_with_warmup(optimizer, num_warmup_steps,
    num_training_steps)]: a scheduler at step 0, which sets the
    optimizer's learning rate for that step. *)
Definition get_linear_schedule_with_warmup
    (optimizer : Optimizer) (num_warmup_steps num_training_steps : Z)
  : Schedule.t * Optimizer :=
  let s := Schedule.mk num_warmup_steps num_training_steps 0 in
  (s, set_lr_factor (Schedule.factor s) optimizer).

(** [scheduler.step()]: count the step, write the new rate. *)
Definition scheduler_step (s : Schedule.t) (optimizer : Optimizer)
  : Schedule.t * Optimizer :=
  let s' := Schedule.advance s in
  (s', set_lr_factor (Schedule.factor s') optimizer).

(** The mutable objects a call of [run_epoch] receives; [None] is
    Python's [None].  The scheduler drives the optimizer it is passed
    with, as at the one call site that passes one. *)
Record Objects : Type := mkObjects {
  model : Model;
  optimizer : option Optimizer;
  scheduler : option Schedule.t
}.

Definition is_none {A} (o : option A) : bool :=
  match o with None => true | Some _ => false end.

(** Lines 55-58: [if optimizer is None: assert scheduler is None]. *)
Definition entry_check (optimizer : option Optimizer)
    (scheduler : option Schedule.t) : bool :=
  if is_none optimizer then is_none scheduler else true.

(** Lines 67-71, the body of the loop under [if optimizer:]; an optimizer
    object is true, [None] is false. *)
Definition update (batch : Batch) : M Objects unit :=
  o <- get ;;
  match optimizer o with
  | None => ret tt
  | Some opt =>
      let m1 := zero_grad opt (model o) in
      let m2 := backward m1 batch in
      let (opt', m3) := optimizer_step opt m2 in
      put (mkObjects m3 (Some opt') (scheduler o)) ;;
      match scheduler o with
      | None => raise AttributeError
      | Some s =>
          let (s', opt'') := scheduler_step s opt' in
          put (mkObjects m3 (Some opt'') (Some s'))
      end
  end.

(** Lines 60-72: [for (inputs, labels) in tqdm(data_loader)]. *)
Fixpoint batches (tokenizer : Tokenizer) (data_loader : list Batch)
    (total_loss : float) : M Objects float :=
  match data_loader with
  | [] => ret total_loss
  | batch :: rest =>
      o <- get ;;
      let loss := forward_loss tokenizer (model o) batch in
      update batch ;;
      batches tokenizer rest (fadd total_loss loss)
  end.

(** Lines 52-73.  [total_loss] starts as the integer 0, which Python
    converts to a float at the first addition; dividing by
    [len(data_loader) = 0] raises. *)
Definition run_epoch (data_loader : list Batch) (tokenizer : Tokenizer)
    (model : Model) (optimizer : option Optimizer)
    (scheduler : option Schedule.t) : result float * Objects :=
  (assert_ (entry_check optimizer scheduler) ;;
   total_loss <- batches tokenizer data_loader (float_of_int 0) ;;
   if len data_loader =? 0 then raise ZeroDivisionError
   else ret (fdiv total_loss (float_of_int (len data_loader))))
    (mkObjects model optimizer scheduler).

(** The per-batch losses of one pass, each computed on the model as the
    updates of the batches before it left it. *)
Fixpoint batch_losses (tokenizer : Tokenizer) (data_loader : list Batch)
    (o : Objects) : list float :=
  match data_loader with
  | [] => []
  | batch :: rest =>
      forward_loss tokenizer (model o) batch
      :: batch_losses tokenizer rest (snd (update batch o))
  end.

(** Sum of a list of losses, added from the left to an initial 0. *)
Definition sum (losses : list float) : float :=
  fold_left fadd losses (float_of_int 0).


(** The parsed command line, [args]. *)
Record Args : Type := mkArgs {
  model_name : string;
  weight_path : string;
  dropout : float;
  num_epochs : Z;
  log_interval : Z;
  batch_size : Z;
  patience : Z;
  freeze_bert : bool
}.

(** What a run leaves behind: the lines handed to the logger and the
    checkpoints written. *)
Inductive Event : Type :=
| Logged (epoch : Z) (train_loss val_loss : float)
| Checkpoint (m : Model) (model_name : string).

(** The objects [main] holds across epochs. *)
Record Run : Type := mkRun {
  run_model : Model;
  run_optimizer : Optimizer;
  run_scheduler : Schedule.t;
  monitor : EarlyStopMonitor.t;
  events : list Event
}.

Definition with_model (f : Model -> Model) (r : Run) : Run :=
  mkRun (f (run_model r)) (run_optimizer r) (run_scheduler r)
        (monitor r) (events r).

Definition emit (e : Event) (r : Run) : Run :=
  mkRun (run_model r) (run_optimizer r) (run_scheduler r)
        (monitor r) (events r ++ [e]).

(** Line 37: [run_epoch(train_loader, ..., optimizer, scheduler)]. *)
Definition train_pass (train_loader : list Batch) (tokenizer : Tokenizer)
  : M Run float :=
  fun r =>
    let (res, o) :=
      run_epoch train_loader tokenizer (run_model r)
                (Some (run_optimizer r)) (Some (run_scheduler r)) in
    (res,
     mkRun (model o)
           (match optimizer o with Some opt => opt | None => run_optimizer r end)
           (match scheduler o with Some s => s | None => run_scheduler r end)
           (monitor r) (events r)).

(** Line 42: [run_epoch(val_loader, tokenizer, model, device, criterion)],
    under [torch.no_grad()]. *)
Definition val_pass (val_loader : list Batch) (tokenizer : Tokenizer)
  : M Run float :=
  fun r =>
    let (res, o) := run_epoch val_loader tokenizer (run_model r) None None in
    (res, with_model (fun _ => model o) r).

(** [logger(epoch, train_loss, val_loss)], [monitor(val_loss)] and
    [save_checkpoint(model, args.model_name, logger)]. *)
Definition logger (epoch : Z) (train_loss val_loss : float) : M Run unit :=
  modify (emit (Logged epoch train_loss val_loss)).

Definition call_monitor (val_loss : float) : M Run unit :=
  modify (fun r =>
    mkRun (run_model r) (run_optimizer r) (run_scheduler r)
          (EarlyStopMonitor.call (monitor r) val_loss) (events r)).

Definition save_checkpoint (args : Args) : M Run unit :=
  modify (fun r => emit (Checkpoint (run_model r) (model_name args)) r).

(** Lines 35-47: the loop over [range(args.num_epochs)]; returning
    without the recursive call is the [break]. *)
Fixpoint epochs (args : Args) (train_loader val_loader : list Batch)
    (tokenizer : Tokenizer) (todo : list Z) : M Run unit :=
  match todo with
  | [] => ret tt
  | epoch :: rest =>
      modify (with_model train_mode) ;;
      train_loss <- train_pass train_loader tokenizer ;;
      modify (with_model eval_mode) ;;
      val_loss <- val_pass val_loader tokenizer ;;
      logger epoch train_loss val_loss ;;
      call_monitor val_loss ;;
      r <- get ;;
      if EarlyStopMonitor.stop (monitor r) then save_checkpoint args
      else epochs args train_loader val_loader tokenizer rest
  end.

(** Lines 19-34: the objects of a run, built from the arguments and the
    first training batch. *)
Definition setup (args : Args) (train_loader : list Batch) (first : Batch)
  : Run :=
  let num_labels := num_labels_of first in
  let model0 :=
    BertForPostClassification (model_name args) num_labels
                              (dropout args) (freeze_bert args) in
  let model1 :=
    if String.eqb (weight_path args) EmptyString then model0
    else load_state_dict (weight_path args) model0 in
  let (sched, opt) :=
    get_linear_schedule_with_warmup
      (AdamW model1) 0 (num_epochs args * len train_loader) in
  mkRun model1 opt sched (EarlyStopMonitor.init (patience args)) [].

(** Lines 13-49.  [iter(train_loader).next()], the first batch of the
    loader, raises on an empty loader, before any object of the run
    exists. *)
Definition main (args : Args) : result unit * list Event :=
  let train_loader := make_loader "train" (batch_size args) in
  let val_loader := make_loader "val" (batch_size args) in
  match train_loader with
  | [] => (Raise StopIteration, [])
  | first :: _ =>
      let tokenizer := from_pretrained (model_name args) in
      let (res, r) :=
        (epochs args train_loader val_loader tokenizer
                (range (num_epochs args)) ;;
         r <- get ;;
         if negb (EarlyStopMonitor.stop (monitor r))
         then save_checkpoint args else ret tt)
          (setup args train_loader first) in
      (res, events r)
  end.

(** Reading the event log. *)
Definition is_checkpoint (e : Event) : bool :=
  match e with Checkpoint _ _ => true | Logged _ _ _ => false end.



(** The objects after the updates of a sequence of batches. *)
Definition after_updates (data_loader : list Batch) (o : Objects) : Objects :=
  fold_left (fun o batch => snd (update batch o)) data_loader o.

(** The objects after the logger and the monitor have seen an epoch. *)
Definition after_epoch (epoch : Z) (t v : float) (r : Run) : Run :=
  mkRun (run_model r) (run_optimizer r) (run_scheduler r)
        (EarlyStopMonitor.call (monitor r) v)
        (events r ++ [Logged epoch t v]).

End Train.

(** ** The command line (lines 76-98) *)

(** The fragment of CPython's [argparse] (3.8 to 3.11) that the script
    configures: optional arguments with the actions [store], [store_true],
    [store_false] and the implicit [help], one value per [store], [type]
    and [choices], unique-prefix abbreviations and [--name=value].
    Strings are byte strings; digits are the ASCII digits. *)
Module Argparse.
Section Parser.
Context {num : PyNum}.

Inductive ArgType : Type := TStr | TInt | TFloat.

Inductive Value : Type :=
| VStr (s : string)
| VInt (z : Z)
| VFloat (f : float)
| VBool (b : bool)
| VNone.

Inductive ActionKind : Type :=
| Store (type : ArgType) (choices : option (list string))
| StoreTrue
| StoreFalse
| Help.

(** One [add_argument] call.  [default = None] is [SUPPRESS]: the
    attribute is not set. *)
Record Action : Type := mkAction {
  option_string : string;
  dest : string;
  kind : ActionKind;
  default : option Value
}.

(** The namespace: attribute names with their values. *)
Definition Namespace : Type := list (string * Value).

Fixpoint getattr (ns : Namespace) (name : string) : option Value :=
  match ns with
  | [] => None
  | (k, v) :: rest => if String.eqb k name then Some v else getattr rest name
  end.

Definition hasattr (ns : Namespace) (name : string) : bool :=
  match getattr ns name with Some _ => true | None => false end.

Definition setattr (ns : Namespace) (name : string) (v : Value) : Namespace :=
  (name, v) :: filter (fun kv => negb (String.eqb (fst kv) name)) ns.

Record Parser : Type := mkParser {
  actions : list Action;
  defaults : list (string * Value)
}.

(** [argparse.ArgumentParser()] comes with [-h] and [--help]. *)
Definition ArgumentParser : Parser :=
  mkParser [mkAction "-h" "help" Help None; mkAction "--help" "help" Help None] [].

(** The default of an action class when the call names none. *)
Definition implicit_default (k : ActionKind) : option Value :=
  match k with
  | StoreTrue => Some (VBool false)
  | StoreFalse => Some (VBool true)
  | Store _ _ => Some VNone
  | Help => None
  end.

(** [parser.add_argument(option_string, dest=..., action=..., default=...)].
    Without a [default] keyword the parser-level default of [dest] is
    used if there is one, else the default of the action class. *)
Definition add_argument (option_string dest : string) (kind : ActionKind)
    (default : option Value) (p : Parser) : Parser :=
  let d :=
    match default with
    | Some v => Some v
    | None =>
        match getattr (defaults p) dest with
        | Some v => Some v
        | None => implicit_default kind
        end
    end in
  mkParser (actions p ++ [mkAction option_string dest kind d]) (defaults p).

(** [parser.set_defaults(name=v)]: a parser-level default, which also
    replaces the default of every action already writing to [name]. *)
Definition set_defaults (name : string) (v : Value) (p : Parser) : Parser :=
  mkParser
    (map (fun a =>
            if String.eqb (dest a) name
            then mkAction (option_string a) (dest a) (kind a) (Some v)
            else a)
         (actions p))
    (setattr (defaults p) name v).

(** *** Reading one command-line string *)

Definition is_digit (c : ascii) : bool :=
  let n := nat_of_ascii c in (48 <=? n)%nat && (n <=? 57)%nat.

Fixpoint all_digits (s : string) : bool :=
  match s with
  | EmptyString => true
  | String c rest => is_digit c && all_digits rest
  end.

(** Splits at the first occurrence of [sep]. *)
Fixpoint split_at (sep : ascii) (s : string) : string * option string :=
  match s with
  | EmptyString => (EmptyString, None)
  | String c rest =>
      if Ascii.eqb c sep then (EmptyString, Some rest)
      else let (a, b) := split_at sep rest in (String c a, b)
  end.

Fixpoint contains (sep : ascii) (s : string) : bool :=
  match s with
  | EmptyString => false
  | String c rest => Ascii.eqb c sep || contains sep rest
  end.

Definition drop_final_newline (s : string) : string :=
  let n := String.length s in
  if String.eqb (substring (n - 1) 1 s) (String "010"%char EmptyString)
  then substring 0 (n - 1) s else s.

(** The pattern [^-\d+$|^-\d*\.\d+$]. *)
Definition negative_number (s : string) : bool :=
  match drop_final_newline s with
  | String "-" body =>
      match split_at "." body with
      | (whole, None) => negb (String.eqb whole EmptyString) && all_digits whole
      | (whole, Some frac) =>
          all_digits whole && negb (String.eqb frac EmptyString) && all_digits frac
      end
  | _ => false
  end.

(** How [_parse_optional] reads a string: a positional, an option (known
    or not) with the value attached by [=], or an ambiguous prefix. *)
Inductive Token : Type :=
| Positional
| Optional (a : option Action) (explicit_arg : option string)
| Ambiguous.

Definition find_option (p : Parser) (s : string) : option Action :=
  find (fun a => String.eqb (option_string a) s) (actions p).

(** The options a string abbreviates: those of which its part before
    [=] is a prefix. *)
Definition option_tuples (p : Parser) (s : string) : list Action :=
  filter (fun a => String.prefix (fst (split_at "=" s)) (option_string a))
         (actions p).

Definition parse_optional (p : Parser) (s : string) : Token :=
  match s with
  | EmptyString => Positional
  | String c rest =>
      if negb (Ascii.eqb c "-") then Positional
      else
        match find_option p s with
        | Some a => Optional (Some a) None
        | None =>
            if String.eqb rest EmptyString then Positional
            else
              let (name, explicit_arg) := split_at "=" s in
              match (if contains "=" s then find_option p name else None) with
              | Some a => Optional (Some a) explicit_arg
              | None =>
                  match (if String.prefix "--" s then option_tuples p s else []) with
                  | _ :: _ :: _ => Ambiguous
                  | [a] => Optional (Some a) explicit_arg
                  | [] =>
                      if negative_number s then Positional
                      else if contains " " s then Positional
                      else Optional None None
                  end
              end
        end
  end.

(** Strings this model does not read: the separator [--], a value
    [--] attached by [=], and [-h] run together with more characters. *)
Definition unmodelled (s : string) : bool :=
  String.eqb s "--"
  || match split_at "=" s with
     | (_, Some v) => String.eqb v "--"
     | _ => false
     end
  || (String.prefix "-h" s && negb (String.eqb s "-h")).

(** *** Taking the actions *)

Inductive Outcome : Type :=
| Parsed (ns : Namespace)
| UsageError
| HelpExit
| Unmodelled.

(** [_get_value] and [_check_value]: convert by [type], then test
    membership in [choices]. *)
Definition get_value (type : ArgType) (s : string) : option Value :=
  match type with
  | TStr => Some (VStr s)
  | TInt => option_map VInt (int_of_string s)
  | TFloat => option_map VFloat (float_of_string s)
  end.

Definition check_value (choices : option (list string)) (s : string) : bool :=
  match choices with
  | None => true
  | Some cs => existsb (String.eqb s) cs
  end.

(** The loop of [_parse_known_args] over the strings, left to right;
    [extras] counts the strings no action consumed. *)
Fixpoint consume (p : Parser) (argv : list string) (ns : Namespace)
    (extras : list string) : Outcome :=
  match argv with
  | [] => match extras with [] => Parsed ns | _ :: _ => UsageError end
  | s :: rest =>
      match parse_optional p s with
      | Ambiguous => UsageError
      | Positional | Optional None _ => consume p rest ns (extras ++ [s])
      | Optional (Some a) explicit_arg =>
          match kind a with
          | Help =>
              match explicit_arg with Some _ => UsageError | None => HelpExit end
          | StoreTrue =>
              match explicit_arg with
              | Some _ => UsageError
              | None => consume p rest (setattr ns (dest a) (VBool true)) extras
              end
          | StoreFalse =>
              match explicit_arg with
              | Some _ => UsageError
              | None => consume p rest (setattr ns (dest a) (VBool false)) extras
              end
          | Store type choices =>
              match explicit_arg with
              | Some v =>
                  match get_value type v with
                  | Some x =>
                      if check_value choices v
                      then consume p rest (setattr ns (dest a) x) extras
                      else UsageError
                  | None => UsageError
                  end
              | None =>
                  match rest with
                  | v :: rest' =>
                      match parse_optional p v with
                      | Positional =>
                          match get_value type v with
                          | Some x =>
                              if check_value choices v
                              then consume p rest' (setattr ns (dest a) x) extras
                              else UsageError
                          | None => UsageError
                          end
                      | _ => UsageError
                      end
                  | [] => UsageError
                  end
              end
          end
      end
  end.

(** The namespace before any string is read: the defaults of the
    actions, then those of the parser, each only where the attribute is
    still missing. *)
Definition initial_namespace (p : Parser) : Namespace :=
  let from_actions :=
    fold_left
      (fun ns a =>
         match default a with
         | Some v => if hasattr ns (dest a) then ns else setattr ns (dest a) v
         | None => ns
         end)
      (actions p) [] in
  fold_left
    (fun ns d => if hasattr ns (fst d) then ns else setattr ns (fst d) (snd d))
    (defaults p) from_actions.

(** [parser.parse_args(argv)].  An ambiguous prefix is reported while
    the strings are classified, before any action is taken. *)
Definition parse_args (p : Parser) (argv : list string) : Outcome :=
  if existsb unmodelled argv then Unmodelled
  else if existsb (fun s => match parse_optional p s with
                            | Ambiguous => true | _ => false end) argv
  then UsageError
  else consume p argv (initial_namespace p) [].

(** *** The parser of [train.py] *)

Definition model_name_choices : list string :=
  ["roberta-base"; "distilbert-base-uncased"; "allenai/longformer-base-4096"].

Definition model_name_default : string := "roberta".

Definition parser : Parser :=
  fold_left (fun p configure => configure p)
    [ add_argument "--model_name" "model_name"
        (Store TStr (Some model_name_choices)) (Some (VStr model_name_default));
      add_argument "--weight_path" "weight_path"
        (Store TStr None) (Some (VStr EmptyString));
      add_argument "--dropout" "dropout"
        (Store TFloat None) (Some (VFloat (float_lit (1 # 2))));
      add_argument "--num_epochs" "num_epochs" (Store TInt None) (Some (VInt 15));
      add_argument "--log_interval" "log_interval" (Store TInt None) (Some (VInt 1));
      add_argument "--batch_size" "batch_size" (Store TInt None) (Some (VInt 16));
      add_argument "--patience" "patience" (Store TInt None) (Some (VInt 2));
      add_argument "--freeze_bert" "freeze_bert" StoreTrue None;
      add_argument "--unfreeze_bert" "freeze_bert" StoreFalse None;
      set_defaults "freeze_bert" (VBool true) ]
    ArgumentParser.

(** The switch a string stands for, if any. *)
Definition switch_of (s : string) : option bool :=
  match parse_optional parser s with
  | Optional (Some a) _ =>
      match kind a with
      | StoreTrue => Some true
      | StoreFalse => Some false
      | _ => None
      end
  | _ => None
  end.

(** The value the last switch on the command line asks for, [true] when
    there is none. *)
Definition record_switch (b : bool) (s : string) : bool :=
  match switch_of s with Some b' => b' | None => b end.

Definition last_switch (argv : list string) : bool :=
  fold_left record_switch argv true.

(** One of the two switches, written out in full. *)
Definition is_switch (s : string) : Prop :=
  s = "--freeze_bert" \/ s = "--unfreeze_bert".

(** Two options exclude each other when no command line naming both is
    accepted. *)
Definition mutually_exclusive (x y : string) : Prop :=
  forall argv ns, In x argv -> In y argv -> parse_args parser argv <> Parsed ns.
End Parser.
End Argparse.

(** Lines 97-98: [args = parser.parse_args()] then [main(args)]. *)
Section Script.
Context {num : PyNum} {torch : Torch}.

Definition args_of_namespace (ns : Argparse.Namespace) : option Args :=
  match Argparse.getattr ns "model_name", Argparse.getattr ns "weight_path",
        Argparse.getattr ns "dropout", Argparse.getattr ns "num_epochs",
        Argparse.getattr ns "log_interval", Argparse.getattr ns "batch_size",
        Argparse.getattr ns "patience", Argparse.getattr ns "freeze_bert" with
  | Some (Argparse.VStr name), Some (Argparse.VStr path),
    Some (Argparse.VFloat p), Some (Argparse.VInt n),
    Some (Argparse.VInt i), Some (Argparse.VInt b),
    Some (Argparse.VInt pat), Some (Argparse.VBool f) =>
      Some (mkArgs name path p n i b pat f)
  | _, _, _, _, _, _, _, _ => None
  end.

End Script.

(** ** A small instance to run the model on *)

(** Rational arithmetic in place of floats, and a one-weight model trained
    by gradient descent on squared error over two training batches, with a
    validation split of one batch or of none.  It is used to evaluate the
    definitions above on concrete runs. *)
Module Example.
Local Open Scope Q_scope.

Fixpoint digits (s : string) (acc : Z) : option Z :=
  match s with
  | EmptyString => Some acc
  | String c rest =>
      if Argparse.is_digit c
      then digits rest (10 * acc + Z.of_nat (nat_of_ascii c - 48))%Z
      else None
  end.

Definition decimal (s : string) : option Z :=
  match s with
  | EmptyString => None
  | String "-" (String c rest) => option_map Z.opp (digits (String c rest) 0%Z)
  | _ => digits s 0%Z
  end.

#[export] Instance rationals : PyNum := {|
  float := Q;
  float_of_int := inject_Z;
  float_lit := fun q => q;
  fadd := Qplus;
  fdiv := Qdiv;
  flt := fun x y => negb (Qle_bool y x);
  int_of_string := decimal;
  float_of_string := fun s => option_map inject_Z (decimal s)
|}.

Definition weight_and_grad : Type := (Q * Q)%type.

Definition one_weight_on (validation : list Q) : Torch := {|
  Batch := Q;
  Tokenizer := unit;
  Model := weight_and_grad;
  Optimizer := Q;
  make_loader := fun split _ =>
    if String.eqb split "train" then [1; 2] else validation;
  num_labels_of := fun _ => 1%Z;
  from_pretrained := fun _ => tt;
  BertForPostClassification := fun _ _ _ _ => (0, 0);
  load_state_dict := fun _ m => m;
  train_mode := fun m => m;
  eval_mode := fun m => m;
  AdamW := fun _ => 1 # 10;
  forward_loss := fun _ m target => (fst m - target) * (fst m - target);
  zero_grad := fun _ m => (fst m, 0);
  backward := fun m target => (fst m, snd m + 2 * (fst m - target));
  optimizer_step := fun lr m => (lr, (fst m - lr * snd m, snd m));
  set_lr_factor := fun factor _ => factor * (1 # 10)
|}.

#[export] Instance one_weight : Torch := one_weight_on [3].


Definition args (num_epochs patience batch_size : Z) : Args :=
  mkArgs "roberta-base" EmptyString (1 # 2) num_epochs 1 batch_size patience true.

Definition two_batches : list (@Batch rationals one_weight) := [1; 2].
Definition fresh : @Model rationals one_weight := (0, 0).
Definition tokenizer : @Tokenizer rationals one_weight := tt.

(** The losses of the specification's example, 0.9, 0.8, 0.85, 0.86. *)
Definition losses : list Q := [9 # 10; 8 # 10; 85 # 100; 86 # 100].
End Example.

(** ** Vocabulary for the properties below *)

Section Vocabulary.
Context {num : PyNum} {torch : Torch}.

(** The lines of a log that the logger wrote. *)
Definition log_lines (log : list Event) : nat :=
  List.length (filter (fun e => negb (is_checkpoint e)) log).

(** The attribute a command-line string writes to: the [dest] of the
    option of the script's parser that it names, if it names one. *)
Definition dest_of (s : string) : option string :=
  match Argparse.parse_optional Argparse.parser s with
  | Argparse.Optional (Some a) _ => Some (Argparse.dest a)
  | _ => None
  end.

Definition names (d s : string) : bool :=
  match dest_of s with
  | Some d' => String.eqb d' d
  | None => false
  end.

(** The strings [o[:n]] for [n] up to the length of [o]. *)
Definition prefixes (o : string) : list string :=
  map (fun n => substring 0 n o) (seq 0 (S (String.length o))).

(** The arguments [main] receives from an empty command line. *)
Definition default_args : Args :=
  mkArgs "roberta" EmptyString (float_lit (1 # 2)) 15 1 16 2 true.


(** The string [s], with no value attached, names the option [o]. *)
Definition resolves_to (o s : string) : bool :=
  match Argparse.parse_optional Argparse.parser s with
  | Argparse.Optional (Some a) None => String.eqb (Argparse.option_string a) o
  | _ => false
  end.


(** The character of an option string after its first two. *)
Definition initial (o : string) : option ascii :=
  match o with
  | String _ (String _ (String x _)) => Some x
  | _ => None
  end.

(** The options of the script that start with two dashes. *)
Definition long_options : list string :=
  filter (String.prefix "--")
         (map Argparse.option_string (Argparse.actions Argparse.parser)).
End Vocabulary.

(** Sample inputs over the small instance. *)
Module Samples.
Definition one_batch : list (@Batch Example.rationals Example.one_weight) :=
  [1%Q].
Definition another_batch : list (@Batch Example.rationals Example.one_weight) :=
  [2%Q].
Definition validation : list (@Batch Example.rationals Example.one_weight) :=
  [3%Q].
Definition first_batch : @Batch Example.rationals Example.one_weight := 1%Q.
Definition rate : @Optimizer Example.rationals Example.one_weight :=
  (1 # 10)%Q.
End Samples.

(** * Properties *)

(** ** The epoch runner *)

Section RunEpochFacts.
Context {num : PyNum} {torch : Torch}.
Variable tokenizer : Tokenizer.


(** Without an optimizer a batch changes nothing. *)
Lemma update_without_optimizer : forall batch o,
  optimizer o = None -> update batch o = (Ok tt, o).
Proof.
  intros batch o H. unfold update, bind, get. now rewrite H.
Qed.

(** With an optimizer and a scheduler a batch is one update. *)
Lemma update_with_both : forall batch m opt s,
  exists m' opt' s',
    update batch (mkObjects m (Some opt) (Some s))
    = (Ok tt, mkObjects m' (Some opt') (Some s')).
Proof.
  intros batch m opt s. unfold update, bind, get, put. simpl.
  destruct (optimizer_step opt (backward (zero_grad opt m) batch)) as [opt' m3].
  simpl. now eexists _, _, _.
Qed.

(** With an optimizer and no scheduler the optimizer steps once and the
    scheduler step raises. *)
Lemma update_without_scheduler : forall batch m opt,
  update batch (mkObjects m (Some opt) None)
  = (Raise AttributeError,
     mkObjects (snd (optimizer_step opt (backward (zero_grad opt m) batch)))
               (Some (fst (optimizer_step opt (backward (zero_grad opt m) batch))))
               None).
Proof.
  intros batch m opt. unfold update, bind, get, put. simpl.
  now destruct (optimizer_step opt (backward (zero_grad opt m) batch)).
Qed.

(** Whatever the loop returns is the running total plus the losses of
    the batches, and the objects are those the updates left. *)
Lemma batches_returns : forall data_loader total o r o',
  batches tokenizer data_loader total o = (Ok r, o') ->
  r = fold_left fadd (batch_losses tokenizer data_loader o) total
  /\ o' = after_updates data_loader o.
Proof.
  induction data_loader as [|b rest IH]; intros total o r o' H.
  - cbn in H. inversion H. now subst.
  - cbn [batches] in H. unfold bind at 1 in H. cbn [get] in H.
    unfold bind at 1 in H.
    destruct (update b o) as [[[]|e] o1] eqn:U; [|discriminate].
    apply IH in H. cbn [batch_losses after_updates fold_left].
    rewrite U. exact H.
Qed.

Lemma batches_eval : forall data_loader total o,
  optimizer o = None ->
  batches tokenizer data_loader total o
  = (Ok (fold_left fadd (batch_losses tokenizer data_loader o) total), o).
Proof.
  induction data_loader as [|b rest IH]; intros total o H.
  - reflexivity.
  - cbn [batches batch_losses fold_left]. unfold bind at 1. cbn [get].
    unfold bind at 1. rewrite (update_without_optimizer b o H).
    cbn [snd]. now apply IH.
Qed.

Lemma batches_train : forall data_loader total m opt s,
  exists m' opt' s',
    batches tokenizer data_loader total (mkObjects m (Some opt) (Some s))
    = (Ok (fold_left fadd
             (batch_losses tokenizer data_loader (mkObjects m (Some opt) (Some s)))
             total),
       mkObjects m' (Some opt') (Some s')).
Proof.
  induction data_loader as [|b rest IH]; intros total m opt s.
  - now exists m, opt, s.
  - cbn [batches batch_losses fold_left]. unfold bind at 1. cbn [get].
    unfold bind at 1.
    destruct (update_with_both b m opt s) as (m1 & opt1 & s1 & U).
    rewrite U. cbn [snd model].
    apply IH.
Qed.

Lemma len_zero : forall data_loader : list Batch,
  (len data_loader =? 0) = true <-> data_loader = [].
Proof.
  intros [|b rest]; unfold len; simpl; split; intros H;
    try reflexivity; discriminate.
Qed.

Lemma len_nonempty : forall data_loader : list Batch,
  data_loader <> [] -> (len data_loader =? 0) = false.
Proof.
  intros l H. destruct (len l =? 0) eqn:E; [|reflexivity].
  apply len_zero in E. contradiction.
Qed.

(** The evaluation pass, [run_epoch] without optimizer and scheduler. *)
Lemma run_epoch_eval : forall data_loader m,
  run_epoch data_loader tokenizer m None None
  = (if len data_loader =? 0 then Raise ZeroDivisionError
     else Ok (fdiv (sum (batch_losses tokenizer data_loader (mkObjects m None None)))
                   (float_of_int (len data_loader))),
     mkObjects m None None).
Proof.
  intros l m. unfold run_epoch, bind, assert_. cbn [entry_check is_none ret].
  rewrite batches_eval by reflexivity.
  now destruct (len l =? 0).
Qed.

(** The training pass, [run_epoch] with optimizer and scheduler. *)
Lemma run_epoch_train : forall data_loader m opt s,
  exists m' opt' s',
    run_epoch data_loader tokenizer m (Some opt) (Some s)
    = (if len data_loader =? 0 then Raise ZeroDivisionError
       else Ok (fdiv (sum (batch_losses tokenizer data_loader
                                        (mkObjects m (Some opt) (Some s))))
                     (float_of_int (len data_loader))),
       mkObjects m' (Some opt') (Some s')).
Proof.
  intros l m opt s. unfold run_epoch, bind, assert_. cbn [entry_check is_none ret].
  destruct (batches_train l (float_of_int 0) m opt s) as (m' & opt' & s' & B).
  rewrite B. exists m', opt', s'.
  now destruct (len l =? 0).
Qed.
End RunEpochFacts.

Section RunEpoch.
Context {num : PyNum} {torch : Torch}.

(** C3.  A call of [run_epoch] with [optimizer = None] and a scheduler
    fails with the assertion error of lines 55-58, whatever the data
    loader holds: no batch is looked at and the objects passed in are
    left as they were. *)
Theorem run_epoch_scheduler_needs_optimizer :
  forall (data_loader : list Batch) tokenizer m s,
    entry_check None (Some s) = false /\
    run_epoch data_loader tokenizer m None (Some s)
    = (Raise AssertionError, mkObjects m None (Some s)).
Proof.
  intros data_loader tokenizer m s. split; reflexivity.
Qed.


(** C5.  A call of [run_epoch] without optimizer and scheduler performs
    no update: whatever the data loader holds and whether the call
    returns or raises, the model is the one passed in. *)
Theorem run_epoch_without_optimizer_keeps_model :
  forall (data_loader : list Batch) tokenizer m,
    model (snd (run_epoch data_loader tokenizer m None None)) = m /\
    snd (run_epoch data_loader tokenizer m None None) = mkObjects m None None.
Proof.
  intros data_loader tokenizer m. rewrite run_epoch_eval. split; reflexivity.
Qed.

(** C6.  A call of [run_epoch] with an optimizer and no scheduler passes
    the entry check and raises at the first batch, in
    [scheduler.step()]: the optimizer has stepped once on that batch and
    the remaining batches are never reached. *)
Theorem run_epoch_optimizer_without_scheduler :
  forall (batch : Batch) rest tokenizer m opt,
    entry_check (Some opt) None = true /\
    run_epoch (batch :: rest) tokenizer m (Some opt) None
    = (Raise AttributeError,
       mkObjects
         (snd (optimizer_step opt (backward (zero_grad opt m) batch)))
         (Some (fst (optimizer_step opt (backward (zero_grad opt m) batch))))
         None).
Proof.
  intros batch rest tokenizer m opt. split; [reflexivity|].
  unfold run_epoch, bind at 1, assert_. cbn [entry_check is_none ret].
  unfold bind at 1. cbn [batches]. unfold bind at 1. cbn [get].
  unfold bind at 1. rewrite update_without_scheduler. reflexivity.
Qed.

End RunEpoch.

(** ** The early-stop monitor *)

Section MonitorFacts.
Context {num : PyNum}.
Import EarlyStopMonitor.

Lemma feed_from_app : forall m ls x,
  feed_from m (ls ++ [x]) = call (feed_from m ls) x.
Proof.
  intros m ls x. unfold feed_from. now rewrite fold_left_app.
Qed.

Lemma running_best_app : forall ls x,
  running_best (ls ++ [x])
  = if improves (running_best ls) x then Some x else running_best ls.
Proof.
  intros ls x. unfold running_best. now rewrite fold_left_app.
Qed.

Lemma patience_feed : forall ls m,
  EarlyStopMonitor.patience (feed_from m ls) = EarlyStopMonitor.patience m.
Proof.
  induction ls as [|x ls IH]; intros m; [reflexivity|].
  cbn. unfold feed_from in IH. now rewrite IH.
Qed.

Lemma best_feed : forall ls P, best (feed P ls) = running_best ls.
Proof.
  induction ls as [|x ls IH] using rev_ind; intros P; [reflexivity|].
  unfold feed. rewrite feed_from_app, running_best_app. cbn.
  fold (feed P ls). now rewrite IH.
Qed.

Lemma counter_nonneg : forall ls P, 0 <= counter (feed P ls).
Proof.
  induction ls as [|x ls IH] using rev_ind; intros P; [cbn; lia|].
  unfold feed. rewrite feed_from_app. cbn. fold (feed P ls).
  specialize (IH P). destruct (improves _ x); lia.
Qed.

Lemma stop_call : forall m x,
  stop (call m x) = true <->
  EarlyStopMonitor.patience m <= counter (call m x) \/ stop m = true.
Proof.
  intros m x. cbn.
  destruct (Z.leb_spec (EarlyStopMonitor.patience m)
              (if improves (best m) x then 0 else counter m + 1)).
  - split; auto.
  - split; [auto|]. intros [H'|H']; [lia|exact H'].
Qed.

(** Once set, the flag stays set. *)
Lemma stop_persists : forall more m,
  stop m = true -> stop (feed_from m more) = true.
Proof.
  induction more as [|x more IH]; intros m H; [exact H|].
  cbn. apply IH. apply stop_call. now right.
Qed.

Lemma stale_run_app : forall b run x,
  stale_run b (run ++ [x]) = stale_run b run && negb (improves b x).
Proof.
  induction run as [|y run IH]; intros x; cbn.
  - now rewrite andb_true_r.
  - now rewrite IH, andb_assoc.
Qed.

(** The counter is the length of a run of losses, ending at the last
    one, that all failed to improve on the best before the run. *)
Lemma counter_is_stale_run : forall ls P,
  exists pre run,
    ls = pre ++ run /\
    counter (feed P ls) = Z.of_nat (List.length run) /\
    stale_run (running_best pre) run = true /\
    running_best ls = running_best pre.
Proof.
  induction ls as [|x ls IH] using rev_ind; intros P.
  - exists [], []. repeat split.
  - destruct (IH P) as (pre & run & E & C & S & B).
    unfold feed. rewrite feed_from_app, running_best_app. cbn.
    fold (feed P ls). rewrite best_feed.
    destruct (improves (running_best ls) x) eqn:I.
    + exists (ls ++ [x]), []. rewrite app_nil_r, running_best_app, I.
      repeat split.
    + exists pre, (run ++ [x]). rewrite E at 1. rewrite app_assoc.
      repeat split; trivial.
      * rewrite C, length_app. cbn. lia.
      * rewrite stale_run_app, S, <- B, I. reflexivity.
Qed.

(** A stale run adds its length to the counter and leaves the best. *)
Lemma stale_run_counts : forall run m,
  stale_run (best m) run = true ->
  counter (feed_from m run) = counter m + Z.of_nat (List.length run)
  /\ best (feed_from m run) = best m.
Proof.
  induction run as [|x run IH]; intros m H.
  - cbn. split; [lia|reflexivity].
  - cbn [stale_run] in H. apply andb_true_iff in H. destruct H as [I S].
    apply negb_true_iff in I.
    assert (Hb : best (call m x) = best m) by (cbn; now rewrite I).
    assert (Hc : counter (call m x) = counter m + 1) by (cbn; now rewrite I).
    cbn [feed_from fold_left]. fold (feed_from (call m x) run).
    destruct (IH (call m x)) as [C B]; [now rewrite Hb|].
    rewrite C, B, Hb, Hc. cbn [List.length]. split; [lia|reflexivity].
Qed.

Lemma stop_of_counter : forall ls P,
  ls <> [] -> P <= counter (feed P ls) -> stop (feed P ls) = true.
Proof.
  intros ls P Hne H. destruct ls as [|x ls] using rev_ind; [contradiction|].
  clear IHls. unfold feed in *. rewrite feed_from_app in *.
  apply stop_call. left. now rewrite patience_feed.
Qed.

Lemma stop_of_streak : forall P seen,
  stale_streak P seen -> stop (feed P seen) = true.
Proof.
  intros P seen (Hne & pre & run & -> & Hlen & S).
  apply stop_of_counter; [exact Hne|].
  unfold feed, feed_from. rewrite fold_left_app.
  fold (feed_from (init P) pre). fold (feed P pre).
  fold (feed_from (feed P pre) run).
  destruct (stale_run_counts run (feed P pre)) as [C _].
  - now rewrite best_feed.
  - rewrite C. pose proof (counter_nonneg pre P). lia.
Qed.

Lemma streak_of_stop : forall ls P,
  stop (feed P ls) = true ->
  exists seen rest, ls = seen ++ rest /\ stale_streak P seen.
Proof.
  induction ls as [|x ls IH] using rev_ind; intros P H; [discriminate|].
  unfold feed in H. rewrite feed_from_app in H. apply stop_call in H.
  rewrite patience_feed, <- feed_from_app in H. fold (feed P (ls ++ [x])) in H.
  destruct H as [H|H].
  - exists (ls ++ [x]), []. split; [now rewrite app_nil_r|].
    split; [now destruct ls|].
    destruct (counter_is_stale_run (ls ++ [x]) P) as (pre & run & E & C & S & _).
    exists pre, run. repeat split; trivial. cbn in H. lia.
  - destruct (IH P H) as (seen & rest & -> & St).
    exists seen, (rest ++ [x]). split; [now rewrite app_assoc|exact St].
Qed.

(** The flag is set exactly when, at some point of the sequence, a run
    of at least [P] consecutive non-improving losses has just ended. *)
Lemma stop_iff_streak : forall P ls,
  stop (feed P ls) = true <->
  exists seen rest, ls = seen ++ rest /\ stale_streak P seen.
Proof.
  intros P ls. split; [apply streak_of_stop|].
  intros (seen & rest & -> & St).
  unfold feed, feed_from. rewrite fold_left_app.
  apply stop_persists. now apply stop_of_streak.
Qed.
End MonitorFacts.

(** C1.  Fed any sequence of validation losses, the monitor of patience
    [P] has its stop flag set exactly when, after some loss of the
    sequence, at least [P] consecutive losses ending there had all failed
    to improve on the running best; the monitor's counter is the length of
    such a run, and once set the flag stays set whatever follows.  On 0.9,
    0.8, 0.85, 0.86 with patience 2 the flag is clear after each of the
    first three losses and set after the fourth. *)
Theorem early_stop_monitor_stop :
  (forall (num : PyNum) (P : Z) (ls : list float),
     EarlyStopMonitor.stop (EarlyStopMonitor.feed P ls) = true <->
     exists seen rest,
       ls = seen ++ rest /\ EarlyStopMonitor.stale_streak P seen) /\
  (forall (num : PyNum) (P : Z) (ls : list float),
     exists pre run,
       ls = pre ++ run /\
       EarlyStopMonitor.counter (EarlyStopMonitor.feed P ls)
       = Z.of_nat (List.length run) /\
       EarlyStopMonitor.stale_run (EarlyStopMonitor.running_best pre) run
       = true) /\
  (forall (num : PyNum) (P : Z) (ls more : list float),
     EarlyStopMonitor.stop (EarlyStopMonitor.feed P ls) = true ->
     EarlyStopMonitor.stop (EarlyStopMonitor.feed P (ls ++ more)) = true) /\
  map (fun k => EarlyStopMonitor.stop
                  (EarlyStopMonitor.feed (num := Example.rationals) 2
                     (firstn k Example.losses)))
      [0; 1; 2; 3; 4]%nat
  = [false; false; false; false; true].
Proof.
  split; [|split; [|split]].
  - intros num. apply stop_iff_streak.
  - intros num P ls.
    destruct (counter_is_stale_run ls P) as (pre & run & E & C & S & _).
    now exists pre, run.
  - intros num P ls more H.
    unfold EarlyStopMonitor.feed, EarlyStopMonitor.feed_from.
    rewrite fold_left_app. now apply stop_persists.
  - vm_compute. reflexivity.
Qed.

(** ** The training driver *)

Section MainFacts.
Context {num : PyNum} {torch : Torch}.
Variables (args : Args) (train_loader val_loader : list Batch).
Variable tokenizer : Tokenizer.

Lemma train_pass_frame : forall r res r',
  train_pass train_loader tokenizer r = (res, r') ->
  events r' = events r /\ monitor r' = monitor r.
Proof.
  intros r res r' H. unfold train_pass in H.
  destruct (run_epoch train_loader tokenizer (run_model r)
                      (Some (run_optimizer r)) (Some (run_scheduler r))).
  inversion H. split; reflexivity.
Qed.

Lemma val_pass_frame : forall r res r',
  val_pass val_loader tokenizer r = (res, r') ->
  events r' = events r /\ monitor r' = monitor r.
Proof.
  intros r res r' H. unfold val_pass in H.
  destruct (run_epoch val_loader tokenizer (run_model r) None None).
  inversion H. split; reflexivity.
Qed.

Lemma train_pass_returns : forall r,
  train_loader <> [] ->
  exists t, fst (train_pass train_loader tokenizer r) = Ok t.
Proof.
  intros r Hne. unfold train_pass.
  destruct (run_epoch_train tokenizer train_loader (run_model r)
                            (run_optimizer r) (run_scheduler r))
    as (m' & opt' & s' & E).
  rewrite E, (len_nonempty train_loader Hne). cbn. eauto.
Qed.

Lemma val_pass_returns : forall r,
  val_loader <> [] ->
  exists v, fst (val_pass val_loader tokenizer r) = Ok v.
Proof.
  intros r Hne. unfold val_pass.
  rewrite run_epoch_eval, (len_nonempty val_loader Hne). cbn. eauto.
Qed.

(** One turn of the loop, spelled out. *)
Lemma epochs_step : forall epoch rest r,
  epochs args train_loader val_loader tokenizer (epoch :: rest) r
  = match train_pass train_loader tokenizer (with_model train_mode r) with
    | (Raise e, r2) => (Raise e, r2)
    | (Ok t, r2) =>
        match val_pass val_loader tokenizer (with_model eval_mode r2) with
        | (Raise e, r4) => (Raise e, r4)
        | (Ok v, r4) =>
            let r6 := after_epoch epoch t v r4 in
            if EarlyStopMonitor.stop (monitor r6)
            then (Ok tt, emit (Checkpoint (run_model r6) (model_name args)) r6)
            else epochs args train_loader val_loader tokenizer rest r6
        end
    end.
Proof.
  intros epoch rest r. cbn [epochs]. unfold bind at 1. cbn [modify].
  unfold bind at 1.
  destruct (train_pass train_loader tokenizer (with_model train_mode r))
    as [[t|e] r2]; [|reflexivity].
  unfold bind at 1. cbn [modify]. unfold bind at 1.
  destruct (val_pass val_loader tokenizer (with_model eval_mode r2))
    as [[v|e] r4]; [|reflexivity].
  unfold bind, logger, call_monitor, modify, get, save_checkpoint.
  cbn -[EarlyStopMonitor.call]. unfold after_epoch, emit.
  cbn -[EarlyStopMonitor.call].
  destruct (EarlyStopMonitor.stop (EarlyStopMonitor.call (monitor r4) v));
    reflexivity.
Qed.




(** With batches in both loaders no pass raises, so the loop returns. *)
Lemma epochs_returns : forall todo r,
  train_loader <> [] -> val_loader <> [] ->
  fst (epochs args train_loader val_loader tokenizer todo r) = Ok tt.
Proof.
  induction todo as [|epoch rest IH]; intros r Ht Hv; [reflexivity|].
  rewrite epochs_step.
  destruct (train_pass_returns (with_model train_mode r) Ht) as [t T].
  destruct (train_pass train_loader tokenizer (with_model train_mode r))
    as [rt r2]. cbn in T. subst rt.
  destruct (val_pass_returns (with_model eval_mode r2) Hv) as [v V].
  destruct (val_pass val_loader tokenizer (with_model eval_mode r2))
    as [rv r4]. cbn in V. subst rv.
  cbn zeta.
  destruct (EarlyStopMonitor.stop (monitor (after_epoch epoch t v r4)));
    [reflexivity|]. now apply IH.
Qed.
End MainFacts.

Section Main.
Context {num : PyNum} {torch : Torch}.


End Main.

(** ** The learning-rate schedule *)

Section ScheduleFacts.
Local Open Scope Q_scope.
Import Schedule.

Lemma max_0_cases : forall x : Q,
  (x <= 0 /\ max_ 0 x = 0) \/ (0 < x /\ max_ 0 x = x).
Proof.
  intros x. unfold max_. destruct (Qle_bool x 0) eqn:E.
  - left. split; [now apply Qle_bool_iff|reflexivity].
  - right. split; [|reflexivity]. apply Qnot_le_lt. intros H.
    apply Qle_bool_iff in H. congruence.
Qed.

Lemma max_0_monotone : forall x y : Q, x <= y -> max_ 0 x <= max_ 0 y.
Proof.
  intros x y H.
  destruct (max_0_cases x) as [[Hx ->]|[Hx ->]],
           (max_0_cases y) as [[Hy ->]|[Hy ->]].
  - apply Qle_refl.
  - now apply Qlt_le_weak.
  - now apply Qle_trans with y.
  - exact H.
Qed.

(** Without warmup steps the multiplier at step [k >= 0] is the share of
    the training steps still to come, cut off at zero. *)
Lemma lr_lambda_no_warmup : forall T k : Z,
  (0 <= k)%Z ->
  lr_lambda 0 T k = max_ 0 (inject_Z (T - k) / inject_Z (Z.max 1 T)).
Proof.
  intros T k Hk. unfold lr_lambda.
  destruct (Z.ltb_spec k 0); [lia|]. now rewrite Z.sub_0_r.
Qed.

Lemma share_monotone : forall T k : Z,
  inject_Z (T - (k + 1)) / inject_Z (Z.max 1 T)
  <= inject_Z (T - k) / inject_Z (Z.max 1 T).
Proof.
  intros T k. unfold Qdiv. apply Qmult_le_compat_r.
  - rewrite <- Zle_Qle. lia.
  - apply Qinv_le_0_compat. change 0 with (inject_Z 0).
    rewrite <- Zle_Qle. lia.
Qed.

Lemma lr_lambda_never_rises : forall T k : Z,
  (0 <= k)%Z -> lr_lambda 0 T (k + 1) <= lr_lambda 0 T k.
Proof.
  intros T k Hk. rewrite !lr_lambda_no_warmup by lia.
  apply max_0_monotone, share_monotone.
Qed.

Lemma no_warmup_without_warmup_steps : forall T : Z, ~ has_warmup 0 T.
Proof.
  intros T (_ & peak & Hpeak & Hrise).
  specialize (Hrise 0%Z ltac:(lia)).
  apply Qlt_not_le in Hrise. apply Hrise.
  now apply lr_lambda_never_rises.
Qed.

Lemma lr_lambda_decay : forall T k : Z,
  (0 < T)%Z -> (0 <= k <= T)%Z ->
  lr_lambda 0 T k == inject_Z (T - k) / inject_Z T.
Proof.
  intros T k HT Hk. rewrite lr_lambda_no_warmup by lia.
  replace (Z.max 1 T) with T by lia.
  destruct (max_0_cases (inject_Z (T - k) / inject_Z T)) as [[H ->]|[H ->]];
    [|reflexivity].
  apply Qle_antisym; [|exact H].
  unfold Qdiv. apply Qmult_le_0_compat.
  - change 0 with (inject_Z 0). rewrite <- Zle_Qle. lia.
  - apply Qinv_le_0_compat. change 0 with (inject_Z 0).
    rewrite <- Zle_Qle. lia.
Qed.

Lemma lr_lambda_spent : forall T k : Z,
  (0 <= k)%Z -> (T <= k)%Z -> lr_lambda 0 T k == 0.
Proof.
  intros T k Hk HT. rewrite lr_lambda_no_warmup by lia.
  destruct (max_0_cases (inject_Z (T - k) / inject_Z (Z.max 1 T)))
    as [[H ->]|[H ->]]; [reflexivity|].
  exfalso. apply Qlt_not_le in H. apply H.
  setoid_replace 0 with (0 * / inject_Z (Z.max 1 T)) by ring.
  unfold Qdiv. apply Qmult_le_compat_r.
  - change 0 with (inject_Z 0). rewrite <- Zle_Qle. lia.
  - apply Qinv_le_0_compat. change 0 with (inject_Z 0).
    rewrite <- Zle_Qle. lia.
Qed.

Lemma factor_after_steps : forall (s : Schedule.t) (j : nat),
  factor (Nat.iter j advance s)
  = lr_lambda (num_warmup_steps s) (num_training_steps s)
              (last_epoch s + Z.of_nat j).
Proof.
  intros s j.
  assert (H : Nat.iter j advance s
              = mk (num_warmup_steps s) (num_training_steps s)
                   (last_epoch s + Z.of_nat j)).
  { induction j as [|j IH].
    - cbn. rewrite Z.add_0_r. now destruct s.
    - cbn [Nat.iter nat_rect]. unfold Nat.iter in IH. rewrite IH.
      unfold advance. cbn. f_equal. lia. }
  now rewrite H.
Qed.
End ScheduleFacts.

(** C7, as the code has it.  The scheduler [main] builds has zero warmup
    steps and [num_epochs * len(train_loader)] training steps.  Its
    multiplier of the learning rate therefore has no warmup phase: it never
    rises from one step to the next; when there is at least one training
    step it starts at the peak, 1, at step 0, is the share
    [(T - k) / T] of the steps still to come at step [k <= T], and is zero
    from step [T] on. *)
Theorem configured_schedule_only_decays :
  forall (num : PyNum) (torch : Torch)
         (args : Args) (train_loader : list Batch) (first : Batch),
    let s := run_scheduler (setup args train_loader first) in
    let T := num_epochs args * len train_loader in
    s = Schedule.mk 0 T 0 /\
    ~ Schedule.warms_up s /\
    (forall j : nat,
       Schedule.factor (Nat.iter j Schedule.advance s)
       = Schedule.lr_lambda 0 T (Z.of_nat j)) /\
    (forall k : Z,
       0 <= k -> (Schedule.lr_lambda 0 T (k + 1) <= Schedule.lr_lambda 0 T k)%Q) /\
    (0 < T ->
     (Schedule.lr_lambda 0 T 0 == 1)%Q /\
     (forall k : Z,
        0 <= k <= T ->
        (Schedule.lr_lambda 0 T k == inject_Z (T - k) / inject_Z T)%Q) /\
     (forall k : Z, T <= k -> (Schedule.lr_lambda 0 T k == 0)%Q)).
Proof.
  intros num torch args train_loader first s T.
  assert (Hs : s = Schedule.mk 0 T 0) by reflexivity.
  split; [exact Hs|]. rewrite Hs. unfold Schedule.warms_up.
  cbn [Schedule.num_warmup_steps Schedule.num_training_steps].
  split; [apply no_warmup_without_warmup_steps|].
  split; [intros j; now rewrite factor_after_steps|].
  split; [intros k Hk; now apply lr_lambda_never_rises|].
  intros HT. split; [|split].
  - apply Qeq_trans with (inject_Z (T - 0) / inject_Z T)%Q;
      [apply lr_lambda_decay; lia|].
    rewrite Z.sub_0_r. apply Qmult_inv_r.
    intros H. unfold Qeq in H. cbn in H. lia.
  - intros k Hk. now apply lr_lambda_decay.
  - intros k Hk. apply lr_lambda_spent; lia.
Qed.

(** C7 at a run of 15 epochs over two training batches: the multiplier of
    the scheduler [main] builds is 1 at step 0, so the learning rate does
    not ramp up from zero, and the schedule has no warmup phase. *)
Lemma configured_schedule_does_not_warm_up :
  (Schedule.factor
     (run_scheduler
        (setup (Example.args 15 2 16) Example.two_batches 1%Q)) == 1)%Q /\
  ~ Schedule.warms_up
      (run_scheduler
         (setup (Example.args 15 2 16) Example.two_batches 1%Q)).
Proof.
  split; [reflexivity|].
  apply no_warmup_without_warmup_steps.
Qed.

(** The schedule of that run: 30 training steps, the multiplier 1 at
    step 0 and 0 at step 30. *)
Lemma configured_schedule_only_decays_witness :
  (Schedule.lr_lambda 0 30 0 == 1)%Q /\
  (Schedule.lr_lambda 0 30 30 == 0)%Q.
Proof.
  pose proof (configured_schedule_only_decays
                Example.rationals Example.one_weight
                (Example.args 15 2 16) Example.two_batches 1%Q) as H.
  cbv zeta in H. destruct H as (_ & _ & _ & _ & H).
  change (num_epochs (Example.args 15 2 16) * len Example.two_batches)
    with 30 in H.
  destruct (H ltac:(lia)) as (H0 & _ & Hend).
  split; [exact H0|]. apply Hend. lia.
Defined.

(** ** The command line *)

Section ArgparseFacts.
Context {num : PyNum}.
Import Argparse.

Lemma getattr_filter : forall ns name other,
  String.eqb other name = false ->
  getattr (filter (fun kv => negb (String.eqb (fst kv) other)) ns) name
  = getattr ns name.
Proof.
  induction ns as [|[k v] ns IH]; intros name other H; [reflexivity|].
  cbn [filter fst getattr]. destruct (String.eqb k other) eqn:K; cbn [negb].
  - apply String.eqb_eq in K. subst k. rewrite H. now apply IH.
  - cbn [getattr]. rewrite IH by exact H. reflexivity.
Qed.

Lemma getattr_setattr_same : forall ns name v,
  getattr (setattr ns name v) name = Some v.
Proof.
  intros. unfold setattr. cbn [getattr]. now rewrite String.eqb_refl.
Qed.

Lemma getattr_setattr_other : forall ns name other v,
  String.eqb other name = false ->
  getattr (setattr ns other v) name = getattr ns name.
Proof.
  intros ns name other v H. unfold setattr. cbn [getattr]. rewrite H.
  now apply getattr_filter.
Qed.

(** An option that [parse_optional] names is one of the parser. *)
Lemma parse_optional_known : forall p s a explicit_arg,
  parse_optional p s = Optional (Some a) explicit_arg ->
  In a (actions p).
Proof.
  intros p s a e H. unfold parse_optional in H.
  destruct s as [|c rest]; [discriminate|].
  destruct (negb (Ascii.eqb c "-")); [discriminate|].
  destruct (find_option p (String c rest)) as [a0|] eqn:F.
  { inversion H; subst. apply find_some in F. tauto. }
  destruct (String.eqb rest EmptyString); [discriminate|].
  destruct (split_at "=" (String c rest)) as [name ex].
  destruct (if contains "=" (String c rest) then find_option p name else None)
    as [a1|] eqn:F1.
  { inversion H; subst.
    destruct (contains "=" (String c rest)); [|discriminate].
    apply find_some in F1. tauto. }
  destruct (if String.prefix "--" (String c rest)
            then option_tuples p (String c rest) else [])
    as [|a2 [|a3 more]] eqn:T.
  - destruct (negative_number (String c rest)); [discriminate|].
    destruct (contains " " (String c rest)); discriminate.
  - inversion H; subst.
    destruct (String.prefix "--" (String c rest)); [|discriminate].
    assert (I : In a (option_tuples p (String c rest)))
      by (rewrite T; now left).
    unfold option_tuples in I. apply filter_In in I. tauto.
  - discriminate.
Qed.

(** The ten options of the script's parser, with [-h]. *)
Lemma parser_actions : forall a,
  In a (actions parser) ->
  kind a = Help
  \/ (exists type choices,
        kind a = Store type choices
        /\ String.eqb (dest a) "freeze_bert" = false)
  \/ (kind a = StoreTrue /\ dest a = "freeze_bert")
  \/ (kind a = StoreFalse /\ dest a = "freeze_bert").
Proof.
  intros a H. cbv in H.
  repeat (destruct H as [<-|H];
          [cbn; first [ now left
                      | right; left; eexists _, _; split; reflexivity
                      | right; right; left; split; reflexivity
                      | right; right; right; split; reflexivity ]|]).
  contradiction.
Qed.

Lemma switch_of_spec : forall s,
  match parse_optional parser s with
  | Optional (Some a) _ =>
      match kind a with
      | StoreTrue => switch_of s = Some true
      | StoreFalse => switch_of s = Some false
      | _ => switch_of s = None
      end
  | _ => switch_of s = None
  end.
Proof.
  intros s. unfold switch_of.
  destruct (parse_optional parser s) as [|[a|] e|]; try reflexivity.
  destruct (kind a); reflexivity.
Qed.

(** Reading a command line leaves [freeze_bert] as its last switch set
    it. *)
Lemma consume_freeze_bert : forall n argv ns extras ns' b,
  (List.length argv <= n)%nat ->
  getattr ns "freeze_bert" = Some (VBool b) ->
  consume parser argv ns extras = Parsed ns' ->
  getattr ns' "freeze_bert" = Some (VBool (fold_left record_switch argv b)).
Proof.
  induction n as [|n IH]; intros argv ns extras ns' b Hlen Hns H.
  { destruct argv; [|cbn in Hlen; lia]. cbn in H.
    destruct extras; [|discriminate]. inversion H; subst. exact Hns. }
  destruct argv as [|s rest].
  { cbn in H. destruct extras; [|discriminate]. inversion H; subst. exact Hns. }
  cbn [List.length] in Hlen. cbn [consume] in H. cbn [fold_left].
  pose proof (switch_of_spec s) as Sw. unfold record_switch at 2.
  destruct (parse_optional parser s) as [|[a|] e|] eqn:P.
  - rewrite Sw. eapply IH; eauto. lia.
  - apply parse_optional_known, parser_actions in P.
    destruct P as [K|[(ty & ch & K & D)|[[K D]|[K D]]]]; rewrite K in H, Sw.
    + destruct e; discriminate.
    + rewrite Sw. destruct e as [v|].
      * destruct (get_value ty v) as [x|]; [|discriminate].
        destruct (check_value ch v); [|discriminate].
        eapply IH; [| |exact H]; [lia|].
        now rewrite getattr_setattr_other.
      * destruct rest as [|v rest']; [discriminate|].
        pose proof (switch_of_spec v) as Sv.
        destruct (parse_optional parser v); try discriminate.
        destruct (get_value ty v) as [x|]; [|discriminate].
        destruct (check_value ch v); [|discriminate].
        cbn [fold_left]. unfold record_switch at 2. rewrite Sv.
        eapply IH; [| |exact H]; [cbn [List.length] in Hlen; lia|].
        now rewrite getattr_setattr_other.
    + rewrite Sw. destruct e; [discriminate|].
      eapply IH; [| |exact H]; [lia|].
      rewrite D. apply getattr_setattr_same.
    + rewrite Sw. destruct e; [discriminate|].
      eapply IH; [| |exact H]; [lia|].
      rewrite D. apply getattr_setattr_same.
  - rewrite Sw. eapply IH; eauto. lia.
  - discriminate.
Qed.

Lemma parse_args_freeze_bert : forall argv ns,
  parse_args parser argv = Parsed ns ->
  getattr ns "freeze_bert" = Some (VBool (last_switch argv)).
Proof.
  intros argv ns H. unfold parse_args in H.
  destruct (existsb unmodelled argv); [discriminate|].
  destruct (existsb _ argv); [discriminate|].
  eapply consume_freeze_bert in H; [exact H|apply le_n|reflexivity].
Qed.

Lemma consume_switches : forall argv ns,
  Forall is_switch argv -> exists ns', consume parser argv ns [] = Parsed ns'.
Proof.
  induction argv as [|s rest IH]; intros ns H.
  - now exists ns.
  - inversion H as [|? ? [->| ->] Hrest]; subst; apply IH; exact Hrest.
Qed.

Lemma last_switch_absent : forall argv,
  Forall (fun s => switch_of s = None) argv -> last_switch argv = true.
Proof.
  intros argv H. unfold last_switch. generalize true.
  induction H as [|s rest Hs _ IH]; intros b; [reflexivity|].
  cbn [fold_left]. unfold record_switch at 2. rewrite Hs. apply IH.
Qed.

Lemma existsb_switches : forall (f : string -> bool) argv,
  f "--freeze_bert" = false -> f "--unfreeze_bert" = false ->
  Forall is_switch argv -> existsb f argv = false.
Proof.
  intros f argv Hf Hu H.
  induction H as [|s rest [->| ->] _ IH]; [reflexivity| |]; cbn [existsb].
  - now rewrite Hf.
  - now rewrite Hu.
Qed.

Lemma parse_args_switches : forall argv,
  Forall is_switch argv -> exists ns, parse_args parser argv = Parsed ns.
Proof.
  intros argv H. unfold parse_args.
  rewrite !existsb_switches by (reflexivity || exact H).
  now apply consume_switches.
Qed.
End ArgparseFacts.

(** C8.  The parser declares [--model_name] with the default ["roberta"]
    and the three choices ["roberta-base"], ["distilbert-base-uncased"] and
    ["allenai/longformer-base-4096"]; the default is none of them.  An
    empty command line yields [model_name = "roberta"], while
    [--model_name roberta] is rejected. *)
Theorem model_name_default_is_no_choice :
  forall num : PyNum,
    In (Argparse.mkAction "--model_name" "model_name"
          (Argparse.Store Argparse.TStr (Some Argparse.model_name_choices))
          (Some (Argparse.VStr Argparse.model_name_default)))
       (Argparse.actions Argparse.parser) /\
    Argparse.model_name_default = "roberta" /\
    Argparse.model_name_choices
    = ["roberta-base"; "distilbert-base-uncased";
       "allenai/longformer-base-4096"] /\
    ~ In Argparse.model_name_default Argparse.model_name_choices /\
    (exists ns,
       Argparse.parse_args Argparse.parser [] = Argparse.Parsed ns /\
       Argparse.getattr ns "model_name" = Some (Argparse.VStr "roberta")) /\
    Argparse.parse_args Argparse.parser ["--model_name"; "roberta"]
    = Argparse.UsageError.
Proof.
  intros num. repeat split.
  - cbv. tauto.
  - cbv. intros H. repeat (destruct H as [H|H]; [discriminate|]). exact H.
  - eexists. split; [reflexivity|]. reflexivity.
Qed.

(** C9, as the code has it.  [--freeze_bert] and [--unfreeze_bert] write
    the same attribute and do not exclude each other: a command line made
    of the two switches, in any number and order, is accepted, and on every
    accepted command line [freeze_bert] is what the last switch on it asks
    for.  When the command line has neither switch that value is [True]. *)
Theorem freeze_switches_last_one_wins :
  forall num : PyNum,
    (forall argv ns,
       Argparse.parse_args Argparse.parser argv = Argparse.Parsed ns ->
       Argparse.getattr ns "freeze_bert"
       = Some (Argparse.VBool (Argparse.last_switch argv))) /\
    (forall argv,
       Forall Argparse.is_switch argv ->
       exists ns, Argparse.parse_args Argparse.parser argv = Argparse.Parsed ns) /\
    (forall argv,
       Forall (fun s => Argparse.switch_of s = None) argv ->
       Argparse.last_switch argv = true) /\
    (exists ns,
       Argparse.parse_args Argparse.parser [] = Argparse.Parsed ns /\
       Argparse.getattr ns "freeze_bert" = Some (Argparse.VBool true)) /\
    Argparse.last_switch ["--freeze_bert"; "--unfreeze_bert"] = false /\
    Argparse.last_switch ["--unfreeze_bert"; "--freeze_bert"] = true.
Proof.
  intros num. split; [|split; [|split; [|repeat split]]].
  - intros argv ns H. rewrite (parse_args_freeze_bert argv ns H).
    reflexivity.
  - apply parse_args_switches.
  - apply last_switch_absent.
  - eexists. split; reflexivity.
Qed.

(** C9 on the command line [--freeze_bert --unfreeze_bert]: it is
    accepted, with [freeze_bert = False], so the two switches are not
    mutually exclusive. *)
Lemma freeze_switches_not_exclusive :
  (exists ns,
     Argparse.parse_args (num := Example.rationals) Argparse.parser
       ["--freeze_bert"; "--unfreeze_bert"] = Argparse.Parsed ns /\
     Argparse.getattr ns "freeze_bert" = Some (Argparse.VBool false)) /\
  ~ Argparse.mutually_exclusive (num := Example.rationals)
      "--freeze_bert" "--unfreeze_bert".
Proof.
  split.
  - eexists. split; reflexivity.
  - intros H.
    refine (H ["--freeze_bert"; "--unfreeze_bert"] _ _ _ eq_refl).
    + left. reflexivity.
    + right. left. reflexivity.
Qed.

(** ** The theorems on concrete runs *)

(** The flag set by the example losses survives two improving losses. *)
Lemma early_stop_monitor_stop_witness :
  EarlyStopMonitor.stop
    (EarlyStopMonitor.feed (num := Example.rationals) 2
       (Example.losses ++ [1 # 2; 1 # 4])) = true.
Proof.
  apply (proj1 (proj2 (proj2 early_stop_monitor_stop)) Example.rationals).
  reflexivity.
Defined.






(** * Further properties of [train.py] *)

(** ** One training pass *)

Section TrainingPass.
Context {num : PyNum} {torch : Torch}.
Variable tokenizer : Tokenizer.

Lemma iter_advance : forall (n : nat) (s : Schedule.t),
  Nat.iter n Schedule.advance (Schedule.advance s)
  = Schedule.advance (Nat.iter n Schedule.advance s).
Proof.
  induction n as [|n IH]; intros s; [reflexivity|].
  cbn [Nat.iter nat_rect]. unfold Nat.iter in IH. now rewrite IH.
Qed.

Lemma last_epoch_iter : forall (n : nat) (s : Schedule.t),
  Schedule.last_epoch (Nat.iter n Schedule.advance s)
  = Schedule.last_epoch s + Z.of_nat n.
Proof.
  induction n as [|n IH]; intros s.
  - cbn. lia.
  - cbn [Nat.iter nat_rect]. unfold Nat.iter in IH. cbn. rewrite IH. lia.
Qed.

Lemma after_updates_app : forall l1 l2 (o : Objects),
  after_updates (l1 ++ l2) o = after_updates l2 (after_updates l1 o).
Proof.
  intros. unfold after_updates. now rewrite fold_left_app.
Qed.

(** The updates of a training pass keep optimizer and scheduler in place
    and step the scheduler once per batch. *)
Lemma after_updates_train : forall data_loader m opt s,
  exists m' opt',
    after_updates data_loader (mkObjects m (Some opt) (Some s))
    = mkObjects m' (Some opt')
        (Some (Nat.iter (List.length data_loader) Schedule.advance s)).
Proof.
  induction data_loader as [|b rest IH]; intros m opt s.
  - now exists m, opt.
  - cbn [after_updates fold_left List.length].
    unfold update at 2, bind, get, put. cbn [optimizer model scheduler].
    destruct (optimizer_step opt (backward (zero_grad opt m) b)) as [opt1 m1].
    cbn [scheduler_step snd fst].
    fold (after_updates rest
            (mkObjects m1
               (Some (set_lr_factor
                        (Schedule.factor (Schedule.advance s)) opt1))
               (Some (Schedule.advance s)))).
    destruct (IH m1 (set_lr_factor (Schedule.factor (Schedule.advance s)) opt1)
                 (Schedule.advance s)) as (m' & opt' & E).
    rewrite E. exists m', opt'. f_equal. f_equal.
    rewrite iter_advance. reflexivity.
Qed.

(** The objects a training pass leaves are those of its updates, whether
    it returns or, on an empty loader, raises. *)
Lemma run_epoch_train_objects : forall data_loader m opt s,
  snd (run_epoch data_loader tokenizer m (Some opt) (Some s))
  = after_updates data_loader (mkObjects m (Some opt) (Some s)).
Proof.
  intros l m opt s. unfold run_epoch, bind, assert_.
  cbn [entry_check is_none ret].
  destruct (batches tokenizer l (float_of_int 0)
                    (mkObjects m (Some opt) (Some s))) as [[t|e] o] eqn:B.
  - apply batches_returns in B. destruct B as [_ ->].
    now destruct (len l =? 0).
  - destruct (batches_train tokenizer l (float_of_int 0) m opt s)
      as (m' & opt' & s' & B').
    rewrite B' in B. discriminate.
Qed.
End TrainingPass.

(** X1.  A call of [run_epoch] with an optimizer and a scheduler steps the
    scheduler exactly once per batch of the data loader: afterwards both
    objects are still there and the scheduler's step counter has grown by
    [len(data_loader)], also when the loader is empty and the call
    raises. *)
Theorem run_epoch_steps_scheduler_once_per_batch :
  forall (num : PyNum) (torch : Torch)
         (data_loader : list Batch) tokenizer m opt s,
    exists m' opt',
      snd (run_epoch data_loader tokenizer m (Some opt) (Some s))
      = mkObjects m' (Some opt')
          (Some (Nat.iter (List.length data_loader) Schedule.advance s)) /\
      Schedule.last_epoch
        (Nat.iter (List.length data_loader) Schedule.advance s)
      = Schedule.last_epoch s + len data_loader.
Proof.
  intros num torch data_loader tokenizer m opt s.
  destruct (after_updates_train data_loader m opt s) as (m' & opt' & E).
  exists m', opt'. split.
  - now rewrite run_epoch_train_objects.
  - apply last_epoch_iter.
Qed.

(** X2.  Training passes compose: with optimizer and scheduler both passed
    or both omitted, one call of [run_epoch] over the batches of two
    loaders in a row leaves the model, the optimizer and the scheduler as
    a call over the first loader followed by a call over the second,
    started on what the first one left. *)
Theorem run_epoch_over_two_loaders :
  forall (num : PyNum) (torch : Torch)
         (first second : list Batch) tokenizer m
         (opt : option Optimizer) (sched : option Schedule.t),
    is_none opt = is_none sched ->
    snd (run_epoch (first ++ second) tokenizer m opt sched)
    = snd (run_epoch second tokenizer
             (model (snd (run_epoch first tokenizer m opt sched)))
             (optimizer (snd (run_epoch first tokenizer m opt sched)))
             (scheduler (snd (run_epoch first tokenizer m opt sched)))).
Proof.
  intros num torch l1 l2 tokenizer m opt sched H.
  destruct opt as [opt|], sched as [s|]; try discriminate.
  - rewrite !run_epoch_train_objects.
    destruct (after_updates_train l1 m opt s) as (m' & opt' & E).
    rewrite E. cbn [model optimizer scheduler].
    rewrite run_epoch_train_objects, after_updates_app, E. reflexivity.
  - rewrite !run_epoch_eval. cbn [model optimizer scheduler snd].
    now rewrite run_epoch_eval.
Qed.

(** ** The loop over the epochs *)

Section EpochLoop.
Context {num : PyNum} {torch : Torch}.
Variables (args : Args) (train_loader val_loader : list Batch).
Variable tokenizer : Tokenizer.

Lemma train_pass_scheduler : forall r,
  run_scheduler (snd (train_pass train_loader tokenizer r))
  = Nat.iter (List.length train_loader) Schedule.advance (run_scheduler r).
Proof.
  intros r. unfold train_pass.
  pose proof (run_epoch_train_objects tokenizer train_loader (run_model r)
                (run_optimizer r) (run_scheduler r)) as O.
  destruct (after_updates_train train_loader (run_model r) (run_optimizer r)
              (run_scheduler r)) as (m' & opt' & E).
  rewrite E in O.
  destruct (run_epoch train_loader tokenizer (run_model r)
                      (Some (run_optimizer r)) (Some (run_scheduler r)))
    as [res o].
  cbn [snd] in O. subst o. reflexivity.
Qed.

Lemma val_pass_scheduler : forall r,
  run_scheduler (snd (val_pass val_loader tokenizer r)) = run_scheduler r.
Proof.
  intros r. unfold val_pass.
  now destruct (run_epoch val_loader tokenizer (run_model r) None None).
Qed.

Lemma log_lines_app : forall log1 log2 : list Event,
  log_lines (log1 ++ log2) = (log_lines log1 + log_lines log2)%nat.
Proof.
  intros. unfold log_lines. now rewrite filter_app, length_app.
Qed.

(** When the loop returns, it has logged some [k] epochs, and the
    scheduler has been stepped [k] times the number of training batches;
    [k] is the number of epochs asked for unless the flag is set. *)
Lemma epochs_count : forall todo r r',
  epochs args train_loader val_loader tokenizer todo r = (Ok tt, r') ->
  exists k : nat,
    (k <= List.length todo)%nat /\
    log_lines (events r') = (log_lines (events r) + k)%nat /\
    run_scheduler r'
    = Nat.iter (k * List.length train_loader) Schedule.advance
               (run_scheduler r) /\
    (EarlyStopMonitor.stop (monitor r') = false -> k = List.length todo).
Proof.
  induction todo as [|epoch rest IH]; intros r r' H.
  - cbn in H. inversion H; subst. exists 0%nat. cbn.
    repeat split; trivial; lia.
  - rewrite epochs_step in H.
    pose proof (train_pass_scheduler (with_model train_mode r)) as Ts.
    destruct (train_pass train_loader tokenizer (with_model train_mode r))
      as [[t|e] r2] eqn:T; [|discriminate].
    apply train_pass_frame in T. destruct T as [Te _].
    pose proof (val_pass_scheduler (with_model eval_mode r2)) as Vs.
    destruct (val_pass val_loader tokenizer (with_model eval_mode r2))
      as [[v|e] r4] eqn:V; [|discriminate].
    apply val_pass_frame in V. destruct V as [Ve _].
    cbn [snd with_model run_scheduler events] in Ts, Vs, Te, Ve.
    rewrite Ts in Vs. rewrite Te in Ve. cbn zeta in H.
    destruct (EarlyStopMonitor.stop (monitor (after_epoch epoch t v r4)))
      eqn:S6.
    + inversion H; subst. exists 1%nat.
      cbn [emit events monitor run_scheduler after_epoch List.length].
      rewrite Ve, Vs, !log_lines_app. cbn [log_lines filter is_checkpoint
        negb List.length]. rewrite Nat.mul_1_l.
      repeat split; trivial; try lia.
      cbn in S6. intros F. cbn in F. congruence.
    + apply IH in H. destruct H as (k & Hk & Hl & Hs & Hf).
      exists (S k). cbn [after_epoch events run_scheduler List.length] in *.
      rewrite Ve, log_lines_app in Hl. cbn in Hl. rewrite Vs in Hs.
      repeat split; try lia.
      * rewrite Hs, <- Nat.iter_add. f_equal. lia.
      * intros F. rewrite (Hf F). reflexivity.
Qed.

Lemma num_training_steps_iter : forall (n : nat) (s : Schedule.t),
  Schedule.num_training_steps (Nat.iter n Schedule.advance s)
  = Schedule.num_training_steps s.
Proof.
  induction n as [|n IH]; intros s; [reflexivity|].
  cbn [Nat.iter nat_rect]. unfold Nat.iter in IH. cbn. apply IH.
Qed.

(** With training batches and no validation batch the first epoch
    raises in its validation pass, with nothing logged. *)
Lemma epochs_without_validation : forall epoch rest r,
  train_loader <> [] -> val_loader = [] ->
  exists r',
    epochs args train_loader val_loader tokenizer (epoch :: rest) r
    = (Raise ZeroDivisionError, r') /\ events r' = events r.
Proof.
  intros epoch rest r Ht Hv. rewrite epochs_step.
  destruct (train_pass_returns train_loader tokenizer
              (with_model train_mode r) Ht) as [t T].
  destruct (train_pass train_loader tokenizer (with_model train_mode r))
    as [rt r2] eqn:TP. cbn in T. subst rt.
  apply train_pass_frame in TP. destruct TP as [Te _].
  unfold val_pass. subst val_loader. rewrite run_epoch_eval. cbn.
  eexists. split; [reflexivity|]. cbn. exact Te.
Qed.
End EpochLoop.

(** X3.  The scheduler's [num_training_steps] matches the loop of [main]:
    when the loop over the epochs returns, the scheduler has been stepped
    once per training batch of every logged epoch, which for a
    non-negative [num_epochs] never exceeds [num_training_steps] and is
    exactly [num_training_steps] when the run was not stopped early. *)
Theorem epochs_use_up_the_schedule :
  forall (num : PyNum) (torch : Torch)
         (args : Args) (train_loader val_loader : list Batch)
         (first : Batch) tokenizer,
    fst (epochs args train_loader val_loader tokenizer
                (range (num_epochs args)) (setup args train_loader first))
    = Ok tt ->
    let r := snd (epochs args train_loader val_loader tokenizer
                         (range (num_epochs args))
                         (setup args train_loader first)) in
    Schedule.num_training_steps (run_scheduler r)
    = num_epochs args * len train_loader /\
    Schedule.last_epoch (run_scheduler r)
    = Z.of_nat (log_lines (events r)) * len train_loader /\
    (0 <= num_epochs args ->
     Schedule.last_epoch (run_scheduler r)
     <= Schedule.num_training_steps (run_scheduler r)) /\
    (0 <= num_epochs args ->
     EarlyStopMonitor.stop (monitor r) = false ->
     Schedule.last_epoch (run_scheduler r)
     = Schedule.num_training_steps (run_scheduler r)).
Proof.
  intros num torch args train_loader val_loader first tokenizer H r.
  subst r.
  destruct (epochs args train_loader val_loader tokenizer
                   (range (num_epochs args))
                   (setup args train_loader first)) as [res r] eqn:E.
  cbn [fst snd] in *. subst res.
  apply epochs_count in E. destruct E as (k & Hk & Hl & Hs & Hf).
  assert (Hrange : List.length (range (num_epochs args))
                   = Z.to_nat (num_epochs args))
    by (unfold range; now rewrite length_map, length_seq).
  rewrite Hrange in Hk, Hf.
  assert (Hs0 : run_scheduler (setup args train_loader first)
                = Schedule.mk 0 (num_epochs args * len train_loader) 0)
    by reflexivity.
  assert (Hl0 : log_lines (events (setup args train_loader first)) = 0%nat)
    by reflexivity.
  rewrite Hs0 in Hs. rewrite Hl0 in Hl. cbn [Nat.add] in Hl.
  rewrite Hs, Hl, num_training_steps_iter, last_epoch_iter.
  cbn [Schedule.num_training_steps Schedule.last_epoch].
  unfold len. repeat split.
  - lia.
  - intros HN. nia.
  - intros HN F. rewrite (Hf F). nia.
Qed.

(** X4.  The exceptions of [main]: it raises [StopIteration] exactly when
    the training loader yields no batch, and [ZeroDivisionError] exactly
    when the training loader yields batches, the validation loader yields
    none and [num_epochs] is positive.  It raises nothing else, in
    particular neither the assertion error nor the attribute error of
    [run_epoch], and a run that raises has logged nothing. *)
Theorem main_raises_exactly :
  forall (num : PyNum) (torch : Torch) (args : Args) (e : exn) log,
    main args = (Raise e, log) <->
    log = [] /\
    (make_loader "train" (batch_size args) = [] /\ e = StopIteration
     \/
     make_loader "train" (batch_size args) <> [] /\
     make_loader "val" (batch_size args) = [] /\
     0 < num_epochs args /\ e = ZeroDivisionError).
Proof.
  intros num torch args e log. unfold main.
  destruct (make_loader "train" (batch_size args)) as [|first tl] eqn:TL.
  { split.
    - intros H. inversion H; subst. split; [reflexivity|]. now left.
    - intros [-> [[_ ->]|[Hne _]]]; [reflexivity|contradiction]. }
  set (train_loader := first :: tl).
  set (val_loader := make_loader "val" (batch_size args)).
  set (tokenizer := from_pretrained (model_name args)).
  set (run0 := setup args train_loader first).
  assert (Hne : train_loader <> []) by discriminate.
  unfold bind at 1.
  destruct (Z.to_nat (num_epochs args)) as [|n] eqn:N.
  { (* no epoch *)
    unfold range. rewrite N. cbn.
    split; [discriminate|]. intros [_ [[? _]|(_ & _ & ? & _)]];
      [discriminate|lia]. }
  destruct val_loader as [|v vl] eqn:VL.
  - (* no validation batch *)
    unfold range. rewrite N. cbn [seq map].
    destruct (epochs_without_validation args train_loader [] tokenizer
                (Z.of_nat 0) (map Z.of_nat (seq 1 n)) run0 Hne eq_refl)
      as (r' & E & Ev).
    rewrite E. rewrite Ev. cbn.
    split.
    + intros H. inversion H; subst. split; [reflexivity|]. right.
      repeat split; trivial; lia.
    + intros [-> [[? _]|(_ & _ & _ & ->)]]; [discriminate|reflexivity].
  - (* batches in both loaders *)
    pose proof (epochs_returns args train_loader (v :: vl) tokenizer
                  (range (num_epochs args)) run0 Hne ltac:(discriminate))
      as R.
    destruct (epochs args train_loader (v :: vl) tokenizer
                     (range (num_epochs args)) run0) as [res r1].
    cbn in R. subst res. unfold bind, get.
    split.
    + intros H.
      destruct (negb (EarlyStopMonitor.stop (monitor r1))); discriminate.
    + intros [_ [[? _]|(_ & ? & _)]]; discriminate.
Qed.

(** X5.  With [num_epochs <= 0] and a training batch to read the label
    width from, [main] runs no epoch: it returns after writing one
    checkpoint, of the model as it was set up, and logs nothing, whatever
    the validation loader holds. *)
Theorem main_without_epochs :
  forall (num : PyNum) (torch : Torch) (args : Args) (first : Batch) rest,
    make_loader "train" (batch_size args) = first :: rest ->
    num_epochs args <= 0 ->
    main args
    = (Ok tt,
       [Checkpoint (run_model (setup args (first :: rest) first))
                   (model_name args)]).
Proof.
  intros num torch args first rest TL HN. unfold main. rewrite TL.
  unfold range. replace (Z.to_nat (num_epochs args)) with 0%nat by lia.
  reflexivity.
Qed.

(** ** The command line, continued *)

Section CommandLine.
Context {num : PyNum}.
Import Argparse.







End CommandLine.


Section CommandLineOptions.
Context {num : PyNum} {torch : Torch}.
Import Argparse.

Lemma names_known : forall d s a e,
  parse_optional parser s = Optional (Some a) e ->
  names d s = String.eqb (dest a) d.
Proof.
  intros d s a e P. unfold names, dest_of. now rewrite P.
Qed.


(** Strings that name no option writing to [d] leave [d] alone. *)
Lemma consume_frame : forall d n argv ns extras ns',
  (List.length argv <= n)%nat ->
  Forall (fun s => names d s = false) argv ->
  consume parser argv ns extras = Parsed ns' ->
  getattr ns' d = getattr ns d.
Proof.
  intros d. induction n as [|n IH]; intros argv ns extras ns' Hlen F H.
  { destruct argv; [|cbn in Hlen; lia]. cbn in H.
    destruct extras; [|discriminate]. now inversion H; subst. }
  destruct argv as [|s rest].
  { cbn in H. destruct extras; [|discriminate]. now inversion H; subst. }
  cbn [List.length] in Hlen. cbn [consume] in H.
  inversion F as [|? ? Fs Frest]; subst.
  destruct (parse_optional parser s) as [|[a|] e|] eqn:P.
  - eapply IH; eauto. lia.
  - rewrite (names_known d s a e P) in Fs.
    destruct (kind a) as [ty ch| | |].
    + destruct e as [v|].
      * destruct (get_value ty v) as [x|]; [|discriminate].
        destruct (check_value ch v); [|discriminate].
        erewrite IH; [| |exact Frest|exact H]; [|lia].
        now apply getattr_setattr_other.
      * destruct rest as [|v rest']; [discriminate|].
        destruct (parse_optional parser v); try discriminate.
        destruct (get_value ty v) as [x|]; [|discriminate].
        destruct (check_value ch v); [|discriminate].
        inversion Frest; subst.
        erewrite IH; [| | |exact H]; [|cbn [List.length] in Hlen; lia|trivial].
        now apply getattr_setattr_other.
    + destruct e; [discriminate|].
      erewrite IH; [| |exact Frest|exact H]; [|lia].
      now apply getattr_setattr_other.
    + destruct e; [discriminate|].
      erewrite IH; [| |exact Frest|exact H]; [|lia].
      now apply getattr_setattr_other.
    + destruct e; discriminate.
  - eapply IH; eauto. lia.
  - discriminate.
Qed.

Lemma existsb_fold : forall (f : string -> bool) l b,
  fold_left (fun b s => b || f s) l b = b || existsb f l.
Proof.
  intros f. induction l as [|x l IH]; intros b; cbn.
  - now rewrite orb_false_r.
  - now rewrite IH, orb_assoc.
Qed.




End CommandLineOptions.


(** X8.  Options the command line does not name keep their defaults: on
    every accepted command line an attribute that no string of the command
    line writes to has the value it has for the empty command line, and
    those values are [model_name = "roberta"], [weight_path = ""],
    [dropout = 0.5], [num_epochs = 15], [log_interval = 1],
    [batch_size = 16], [patience = 2] and [freeze_bert = True]. *)
Theorem unnamed_options_keep_their_defaults :
  forall num : PyNum,
    (forall (d : string) (argv : list string) ns,
       Argparse.parse_args Argparse.parser argv = Argparse.Parsed ns ->
       Forall (fun s => names d s = false) argv ->
       Argparse.getattr ns d
       = Argparse.getattr (Argparse.initial_namespace Argparse.parser) d) /\
    args_of_namespace (Argparse.initial_namespace Argparse.parser)
    = Some default_args.
Proof.
  intros num. split; [|reflexivity].
  intros d argv ns H F. unfold Argparse.parse_args in H.
  destruct (existsb Argparse.unmodelled argv); [discriminate|].
  destruct (existsb _ argv); [discriminate|].
  eapply consume_frame; eauto.
Qed.


Section Abbreviations.
Context {num : PyNum}.
Import Argparse.

Lemma prefix_length : forall s o,
  String.prefix s o = true -> (String.length s <= String.length o)%nat.
Proof.
  induction s as [|c s IH]; intros o H; cbn; [lia|].
  destruct o as [|c' o]; cbn in H; [discriminate|].
  destruct (ascii_dec c c'); [|discriminate].
  apply IH in H. cbn. lia.
Qed.

Lemma prefix_in_prefixes : forall s o,
  String.prefix s o = true -> In s (prefixes o).
Proof.
  intros s o H. unfold prefixes. apply in_map_iff.
  exists (String.length s). split.
  - now apply String.prefix_correct.
  - apply in_seq. apply prefix_length in H. lia.
Qed.

Lemma prefixes_resolve :
  forallb (fun o =>
             forallb (fun s => (String.length s <? 3)%nat || resolves_to o s)
                     (prefixes o))
          long_options
  = true.
Proof. vm_compute. reflexivity. Qed.

Lemma prefix_cons : forall c s x o,
  String.prefix (String c s) (String x o) = Ascii.eqb c x && String.prefix s o.
Proof.
  intros c s x o. cbn. destruct (ascii_dec c x) as [->|N].
  - now rewrite Ascii.eqb_refl.
  - apply Ascii.eqb_neq in N. now rewrite N.
Qed.

Lemma starts_with_dashes : forall s,
  String.prefix "--" s = true ->
  exists rest, s = String "-" (String "-" rest).
Proof.
  intros [|c1 [|c2 rest]] H; try discriminate H.
  - rewrite prefix_cons in H. apply andb_true_iff in H. destruct H as [_ H].
    discriminate H.
  - rewrite !prefix_cons in H.
    apply andb_true_iff in H. destruct H as [E1 H].
    apply andb_true_iff in H. destruct H as [E2 _].
    apply Ascii.eqb_eq in E1, E2. subst. now exists rest.
Qed.

Lemma map_filter : forall (A B : Type) (f : B -> bool) (g : A -> B) l,
  map g (filter (fun a => f (g a)) l) = filter f (map g l).
Proof.
  intros A B f g. induction l as [|x l IH]; [reflexivity|].
  cbn. destruct (f (g x)); cbn; now rewrite IH.
Qed.

Lemma prefix_initial : forall a b c n o,
  String.prefix (String a (String b (String c n))) o = true ->
  initial o = Some c.
Proof.
  intros a b c n [|x [|y [|z o]]] H; try discriminate H.
  - rewrite prefix_cons in H. apply andb_true_iff in H. destruct H as [_ H].
    discriminate H.
  - rewrite !prefix_cons in H.
    apply andb_true_iff in H. destruct H as [_ H].
    apply andb_true_iff in H. destruct H as [_ H]. discriminate H.
  - rewrite !prefix_cons in H.
    apply andb_true_iff in H. destruct H as [_ H].
    apply andb_true_iff in H. destruct H as [_ H].
    apply andb_true_iff in H. destruct H as [E _].
    apply Ascii.eqb_eq in E. now subst.
Qed.

(** Among strings with different letters after the two dashes, a string
    with a letter after its two dashes is a prefix of at most one. *)
Lemma filter_prefix_single : forall l,
  NoDup (map initial l) ->
  forall a b c n o1 o2 more,
    filter (String.prefix (String a (String b (String c n)))) l
    <> o1 :: o2 :: more.
Proof.
  induction l as [|o l IH]; intros N a b c n o1 o2 more T; [discriminate|].
  cbn [map] in N. inversion N as [|? ? Hnot Hrest]; subst.
  cbn [filter] in T.
  destruct (String.prefix (String a (String b (String c n))) o) eqn:P.
  - inversion T as [[E1 E2]]. subst o1.
    assert (I : In o2 (filter (String.prefix
                                 (String a (String b (String c n)))) l))
      by (rewrite E2; now left).
    apply filter_In in I. destruct I as [I P2].
    apply prefix_initial in P, P2. apply Hnot. rewrite P, <- P2.
    now apply in_map.
  - now apply IH in T.
Qed.

(** Two options of the script never share their first letter, so a string
    with a letter after the two dashes abbreviates at most one. *)
Lemma names_single : forall c name' o1 o2 more,
  filter (String.prefix (String "-" (String "-" (String c name'))))
         (map option_string (actions parser))
  <> o1 :: o2 :: more.
Proof.
  intros c name' o1 o2 more. apply filter_prefix_single.
  let l := eval vm_compute in (map initial (map option_string (actions parser))) in
  change (map initial (map option_string (actions parser))) with l.
  repeat (constructor; [cbn; intuition discriminate|]). constructor.
Qed.

Lemma option_tuples_single : forall c name' a1 a2 more,
  filter (fun a => String.prefix (String "-" (String "-" (String c name')))
                                 (option_string a))
         (actions parser)
  <> a1 :: a2 :: more.
Proof.
  intros c name' a1 a2 more T.
  apply (f_equal (map option_string)) in T.
  rewrite (map_filter _ _
             (String.prefix (String "-" (String "-" (String c name'))))
             option_string) in T.
  cbn [map] in T. now apply names_single in T.
Qed.

(** Only a string with nothing between the two dashes and [=], or the end,
    abbreviates more than one option. *)
Lemma ambiguous_only_bare_dashes : forall s,
  parse_optional parser s = Ambiguous -> fst (split_at "=" s) = "--".
Proof.
  intros s H. unfold parse_optional in H.
  destruct s as [|c rest]; [discriminate|].
  destruct (negb (Ascii.eqb c "-")); [discriminate|].
  destruct (find_option parser (String c rest)); [discriminate|].
  destruct (String.eqb rest EmptyString); [discriminate|].
  destruct (split_at "=" (String c rest)) as [name ex] eqn:Sp.
  destruct (if contains "=" (String c rest) then find_option parser name
            else None); [discriminate|].
  destruct (String.prefix "--" (String c rest)) eqn:D.
  2:{ destruct (negative_number (String c rest)); [discriminate|].
      destruct (contains " " (String c rest)); discriminate. }
  destruct (option_tuples parser (String c rest)) as [|a1 [|a2 more]] eqn:T.
  { destruct (negative_number (String c rest)); [discriminate|].
    destruct (contains " " (String c rest)); discriminate. }
  { discriminate. }
  clear H. unfold option_tuples in T. rewrite Sp in T. cbn [fst] in *.
  apply starts_with_dashes in D. destruct D as [rest2 D].
  rewrite D in Sp. cbn in Sp.
  destruct (split_at "=" rest2) as [name2 ex2]. inversion Sp; subst name ex.
  destruct name2 as [|c3 name3]; [reflexivity|].
  now apply option_tuples_single in T.
Qed.
End Abbreviations.

(** X10.  Every option of the script that starts with two dashes can be
    abbreviated: any of its prefixes that keeps at least the first letter
    after the dashes names that option and no other, since the ten
    options start with ten different letters.  The only strings the
    parser finds ambiguous have nothing between the two dashes and an
    [=] or the end. *)
Theorem options_can_be_abbreviated :
  forall num : PyNum,
    long_options
    = ["--help"; "--model_name"; "--weight_path"; "--dropout";
       "--num_epochs"; "--log_interval"; "--batch_size"; "--patience";
       "--freeze_bert"; "--unfreeze_bert"] /\
    (forall o s : string,
       In o long_options ->
       String.prefix s o = true ->
       (3 <= String.length s)%nat ->
       resolves_to o s = true) /\
    (forall s : string,
       Argparse.parse_optional Argparse.parser s = Argparse.Ambiguous ->
       fst (Argparse.split_at "=" s) = "--").
Proof.
  intros num. split; [reflexivity|]. split.
  - intros o s Ho P L.
    pose proof prefixes_resolve as R.
    rewrite forallb_forall in R. specialize (R o Ho).
    rewrite forallb_forall in R.
    specialize (R s (prefix_in_prefixes s o P)).
    apply orb_true_iff in R. destruct R as [R|R]; [|exact R].
    apply Nat.ltb_lt in R. lia.
  - apply ambiguous_only_bare_dashes.
Qed.

(** ** The further properties on concrete runs *)

(** Training on one batch and then on another, with the example model. *)
Lemma run_epoch_over_two_loaders_witness :
  snd (run_epoch (Samples.one_batch ++ Samples.another_batch)
         Example.tokenizer Example.fresh
         (Some Samples.rate) (Some (Schedule.mk 0 2 0)))
  = snd (run_epoch Samples.another_batch Example.tokenizer
           (model (snd (run_epoch Samples.one_batch Example.tokenizer
                          Example.fresh
                          (Some Samples.rate) (Some (Schedule.mk 0 2 0)))))
           (optimizer (snd (run_epoch Samples.one_batch Example.tokenizer
                              Example.fresh
                              (Some Samples.rate) (Some (Schedule.mk 0 2 0)))))
           (scheduler (snd (run_epoch Samples.one_batch Example.tokenizer
                              Example.fresh
                              (Some Samples.rate) (Some (Schedule.mk 0 2 0)))))).
Proof.
  apply (run_epoch_over_two_loaders Example.rationals Example.one_weight
           Samples.one_batch Samples.another_batch Example.tokenizer
           Example.fresh (Some Samples.rate) (Some (Schedule.mk 0 2 0))).
  reflexivity.
Defined.

(** Two epochs over the example data: the scheduler is built for
    [num_epochs * len(train_loader)] steps. *)
Lemma epochs_use_up_the_schedule_witness :
  Schedule.num_training_steps
    (run_scheduler
       (snd (epochs (Example.args 2 5 16) Example.two_batches
                    Samples.validation Example.tokenizer (range 2)
                    (setup (Example.args 2 5 16) Example.two_batches
                           Samples.first_batch))))
  = 2 * len Example.two_batches.
Proof.
  assert (R : fst (epochs (Example.args 2 5 16) Example.two_batches
                          Samples.validation Example.tokenizer
                          (range (num_epochs (Example.args 2 5 16)))
                          (setup (Example.args 2 5 16) Example.two_batches
                                 Samples.first_batch))
              = Ok tt)
    by (apply epochs_returns; discriminate).
  destruct (epochs_use_up_the_schedule Example.rationals Example.one_weight
              (Example.args 2 5 16) Example.two_batches Samples.validation
              Samples.first_batch Example.tokenizer R) as [H _].
  exact H.
Defined.

(** No epoch asked for: one checkpoint of the model as set up. *)
Lemma main_without_epochs_witness :
  main (torch := Example.one_weight) (Example.args 0 5 16)
  = (Ok tt,
     [Checkpoint
        (run_model (setup (Example.args 0 5 16) Example.two_batches
                          Samples.first_batch))
        "roberta-base"]).
Proof.
  apply (main_without_epochs Example.rationals Example.one_weight
           (Example.args 0 5 16) Samples.first_batch Samples.another_batch).
  - reflexivity.
  - cbn. lia.
Defined.


